(** * MediRemind: a shallow embedding of [app.py] and [pa.py]

    The application keeps medications and doctor appointments in one JSON
    document, validates records, computes the next reminder of a medication
    and turns the document into calendar events.  This file embeds the
    functions of the two source files and proves the properties stated about
    them.

    Layout: the Python values and library operations the program relies on
    (exceptions, [int / int], [math.ceil], [str.strip], [datetime]), the data
    model, the validators, the reminder calculator, the calendar builder, the
    store, the pages; then the theorems. *)

From Stdlib Require Import ZArith Lia Bool List Ascii String Sorted Permutation.
From Stdlib Require Import Floats.SpecFloat.
From stdpp Require Import base option list strings gmap.

Import ListNotations.
Local Open Scope string_scope.
Local Open Scope list_scope.
Local Open Scope Z_scope.

(** ** Exceptions and fallible computations *)

(** The exception classes the program can meet.  [PermissionError] stands for
    the [OSError]s of [open] other than [FileNotFoundError];
    [StopException] is what [st.stop()] raises: it derives from
    [BaseException], so no [except Exception] clause catches it. *)
Inductive exn :=
| KeyError (key : string)
| TypeError
| ValueError
| JSONDecodeError
| OverflowError
| ZeroDivisionError
| FileNotFoundError
| PermissionError
| StopException.

(** [except Exception]. *)
Definition isa_Exception (e : exn) : bool :=
  match e with StopException => false | _ => true end.

(** [except json.JSONDecodeError]. *)
Definition isa_JSONDecodeError (e : exn) : bool :=
  match e with JSONDecodeError => true | _ => false end.

(** [except FileNotFoundError]. *)
Definition isa_FileNotFoundError (e : exn) : bool :=
  match e with FileNotFoundError => true | _ => false end.

Inductive result (A : Type) :=
| Ok (a : A)
| Raise (e : exn).
Arguments Ok {A} a.
Arguments Raise {A} e.

Definition bind {A B} (c : result A) (k : A -> result B) : result B :=
  match c with
  | Ok a => k a
  | Raise e => Raise e
  end.

Declare Scope py_scope.
Delimit Scope py_scope with py.
Notation "x <- c ;; k" := (bind c (fun x => k))
  (at level 100, c at next level, right associativity) : py_scope.
Local Open Scope py_scope.

(** [for x in l: ...] collecting what each iteration produces; the first
    exception ends the loop. *)
Fixpoint for_each {A B} (body : A -> result (list B)) (l : list A) : result (list B) :=
  match l with
  | [] => Ok []
  | x :: rest =>
      out <- body x ;;
      outs <- for_each body rest ;;
      Ok (out ++ outs)
  end.

(** ** Numbers

    The stock fields are Python [int]s, unbounded: [Z] (the pages create
    them as 0 and edit them with number inputs of integer bounds).
    [a / b] on two [int]s is true division: the quotient of the two integers
    correctly rounded to a binary64 [float] (round half to even),
    [ZeroDivisionError] for a zero divisor and [OverflowError] when the
    quotient is too large for a [float].  The rounding is the Standard
    Library's IEEE-754 division applied to the two integers taken as exact
    mantissas. *)

Definition prec : Z := 53.
Definition emax : Z := 1024.

Definition float := spec_float.

Definition exact_int (a : Z) : float :=
  match a with
  | Z0 => S754_zero false
  | Zpos p => S754_finite false p 0
  | Zneg p => S754_finite true p 0
  end.

Definition int_truediv (a b : Z) : result float :=
  if b =? 0 then Raise ZeroDivisionError
  else match SFdiv prec emax (exact_int a) (exact_int b) with
       | S754_infinity _ => Raise OverflowError
       | x => Ok x
       end.

(** [math.ceil] on a [float]: the least integer not below it;
    [OverflowError] on an infinity, [ValueError] on a NaN. *)
Definition math_ceil (x : float) : result Z :=
  match x with
  | S754_zero _ => Ok 0
  | S754_infinity _ => Raise OverflowError
  | S754_nan => Raise ValueError
  | S754_finite s m e =>
      let v := cond_Zopp s (Zpos m) in
      if 0 <=? e then Ok (v * 2 ^ e) else Ok (- ((- v) / 2 ^ (- e)))
  end.

(** The ceiling of the exact quotient [a / b], for [0 < b]. *)
Definition exact_ceil_div (a b : Z) : Z := - ((- a) / b).

(** ** Strings

    A [str] is a [string] whose characters are the code points below 256.
    [str.isspace] holds there of TAB, LF, VT, FF, CR, the four separators
    0x1c..0x1f, the space, NEL (0x85) and the no-break space (0xa0). *)

Definition code (c : ascii) : Z := Z.of_N (N_of_ascii c).

Definition isspace (c : ascii) : bool :=
  let n := code c in
  ((9 <=? n) && (n <=? 13)) || ((28 <=? n) && (n <=? 32)) || (n =? 133) || (n =? 160).

Fixpoint lstrip (s : string) : string :=
  match s with
  | EmptyString => EmptyString
  | String c rest => if isspace c then lstrip rest else s
  end.

Fixpoint rstrip (s : string) : string :=
  match s with
  | EmptyString => EmptyString
  | String c rest =>
      match rstrip rest with
      | EmptyString => if isspace c then EmptyString else String c EmptyString
      | kept => String c kept
      end
  end.

(** [s.strip()]. *)
Definition strip (s : string) : string := rstrip (lstrip s).

(** [not s] on a [str]: the empty string is the only falsy one. *)
Definition str_falsy (s : string) : bool :=
  match s with EmptyString => true | _ => false end.

(** Every character is whitespace (the empty string included). *)
Fixpoint whitespace_only (s : string) : bool :=
  match s with
  | EmptyString => true
  | String c rest => isspace c && whitespace_only rest
  end.

(** ** Dates and times

    A [date] is kept as its proleptic Gregorian ordinal ([date.toordinal()]):
    day 1 is 0001-01-01 and [MAXORDINAL] is 9999-12-31, the last date Python
    represents.  A naive [datetime] is a date and a time of day; two of them
    compare field by field, the date first. *)

Definition MAXORDINAL : Z := 3652059.

Record time := mktime {
  hour : Z;
  minute : Z;
  second : Z;
  microsecond : Z
}.

Record datetime := mkdatetime {
  date_of : Z;
  time_of : time
}.

Definition midnight : time := mktime 0 0 0 0.

(** [datetime.combine(d, t)]. *)
Definition combine (d : Z) (t : time) : datetime := mkdatetime d t.

(** Lexicographic composition of two comparisons. *)
Definition lex (c1 c2 : comparison) : comparison :=
  match c1 with Eq => c2 | _ => c1 end.

Definition time_compare (a b : time) : comparison :=
  lex (hour a ?= hour b)
    (lex (minute a ?= minute b)
       (lex (second a ?= second b) (microsecond a ?= microsecond b))).

Definition datetime_compare (a b : datetime) : comparison :=
  lex (date_of a ?= date_of b) (time_compare (time_of a) (time_of b)).

(** [a < b] and [a <= b] on times of day and on datetimes. *)
Definition time_ltb (a b : time) : bool :=
  match time_compare a b with Lt => true | _ => false end.

Definition datetime_ltb (a b : datetime) : bool :=
  match datetime_compare a b with Lt => true | _ => false end.

Definition datetime_leb (a b : datetime) : bool :=
  match datetime_compare a b with Gt => false | _ => true end.

(** [timedelta(days=n)]: the magnitude of a [timedelta] is limited. *)
Definition timedelta_days (n : Z) : result Z :=
  if Z.abs n <=? 999999999 then Ok n else Raise OverflowError.

(** [d + delta] on a date: [OverflowError] outside 0001-01-01..9999-12-31. *)
Definition date_add (d delta : Z) : result Z :=
  let o := d + delta in
  if (1 <=? o) && (o <=? MAXORDINAL) then Ok o else Raise OverflowError.

(** [dt + delta] for a [delta] of whole days. *)
Definition datetime_add (dt : datetime) (delta : Z) : result datetime :=
  d <- date_add (date_of dt) delta ;;
  Ok (mkdatetime d (time_of dt)).

(** *** [datetime.strptime(s, '%H:%M:%S').time()]

    The format compiles to the regular expression
    [(2[0-3]|[0-1]\d|\d):([0-5]\d|\d):(6[0-1]|[0-5]\d|\d)], matched at the
    start of [s]; text left after the match is an error, and so is a second
    of 60 or 61, which the regular expression lets through and the
    [datetime] constructor refuses.  Every failure is a [ValueError]: [None]
    here. *)

Definition is_digit (c : ascii) : bool := (48 <=? code c) && (code c <=? 57).

Definition digit (c : ascii) : Z := code c - 48.

Definition digit_upto (hi : Z) (c : ascii) : bool := is_digit c && (digit c <=? hi).

(** One directive: the two-character alternatives come first in the pattern,
    the single digit last. *)
Definition directive (two : ascii -> ascii -> bool) (s : list ascii)
  : option (Z * list ascii) :=
  match s with
  | a :: b :: rest =>
      if two a b then Some (10 * digit a + digit b, rest)
      else if is_digit a then Some (digit a, b :: rest)
      else None
  | [a] => if is_digit a then Some (digit a, []) else None
  | [] => None
  end.

Definition two_H (a b : ascii) : bool :=
  (Ascii.eqb a "2" && digit_upto 3 b) || (digit_upto 1 a && is_digit b).

Definition two_M (a b : ascii) : bool := digit_upto 5 a && is_digit b.

Definition two_S (a b : ascii) : bool :=
  (Ascii.eqb a "6" && digit_upto 1 b) || (digit_upto 5 a && is_digit b).

Definition colon (s : list ascii) : option (list ascii) :=
  match s with
  | c :: rest => if Ascii.eqb c ":" then Some rest else None
  | [] => None
  end.

Definition strptime_HMS (s : string) : option time :=
  match directive two_H (list_ascii_of_string s) with
  | None => None
  | Some (h, s1) =>
  match colon s1 with
  | None => None
  | Some s2 =>
  match directive two_M s2 with
  | None => None
  | Some (m, s3) =>
  match colon s3 with
  | None => None
  | Some s4 =>
  match directive two_S s4 with
  | Some (sec, []) => if sec <=? 59 then Some (mktime h m sec 0) else None
  | _ => None
  end end end end end.

(** ** Data model

    A record of the document is a JSON object with fixed keys: a Rocq record,
    an optional key being an [option] field. *)

Record stock_info := mkstock {
  current_quantity : Z;
  consumption_rate : Z;
  alert_threshold : Z
}.

Record medication := mkmed {
  name : string;
  schedule : string;
  stock : option stock_info
}.

Record appointment := mkappt {
  date_time : string;
  description : option string
}.

(** What [json.load] returns, as far as the program looks into it: a value
    that is not an object, or an object in which each of the two top-level
    keys is present or not. *)
Inductive json_value :=
| JOther
| JObject (medications : option (list medication))
          (appointments : option (list appointment)).

(** [{"medications": [], "appointments": []}]. *)
Definition empty_document : json_value := JObject (Some []) (Some []).

(** A document: an object with both keys. *)
Definition document (meds : list medication) (appts : list appointment) : json_value :=
  JObject (Some meds) (Some appts).

(** [data['medications']] and [data['appointments']]. *)
Definition get_medications (data : json_value) : result (list medication) :=
  match data with
  | JOther => Raise TypeError
  | JObject None _ => Raise (KeyError "medications")
  | JObject (Some meds) _ => Ok meds
  end.

Definition get_appointments (data : json_value) : result (list appointment) :=
  match data with
  | JOther => Raise TypeError
  | JObject _ None => Raise (KeyError "appointments")
  | JObject _ (Some appts) => Ok appts
  end.

(** ** Validator *)

Definition validate_medication (med : medication) : bool * string :=
  if str_falsy (strip (name med)) then (false, "Medication name cannot be empty")
  else
    match stock med with
    | Some s =>
        if current_quantity s <? 0 then (false, "Current quantity cannot be negative")
        else if consumption_rate s <=? 0 then (false, "Consumption rate must be positive")
        else if alert_threshold s <? 0 then (false, "Alert threshold cannot be negative")
        else (true, "")
    | None => (true, "")
    end.

Section Calendar.

(** [datetime.fromisoformat], the standard library's parser of ISO-8601
    strings, whose accepted language depends on the interpreter's version:
    [None] is its [ValueError].  The timestamps it returns are taken as
    naive ones. *)
Variable fromisoformat : string -> option datetime.

Definition fromisoformat_or_raise (s : string) : result datetime :=
  match fromisoformat s with
  | Some dt => Ok dt
  | None => Raise ValueError
  end.

(** The [try] succeeds unless [fromisoformat] raises its [ValueError]. *)
Definition validate_appointment (appt : appointment) : bool * string :=
  match fromisoformat (date_time appt) with
  | None => (false, "Invalid date/time format")
  | Some _ => (true, "")
  end.

(** ** Reminder calculator *)

(** The clock is read as [now]: [datetime.now()], and [date.today()] is its
    date.  One call of a function below sees one reading. *)
Variable now : datetime.

Definition get_next_reminder (med : medication) : result datetime :=
  match strptime_HMS (schedule med) with
  | None => Raise ValueError
  | Some schedule_time =>
      let today := now in
      let next_reminder := combine (date_of today) schedule_time in
      if datetime_ltb next_reminder today
      then delta <- timedelta_days 1 ;; datetime_add next_reminder delta
      else Ok next_reminder
  end.

(** [math.ceil((current_quantity - alert_threshold) / consumption_rate)]. *)
Definition days_until_low (s : stock_info) : result Z :=
  x <- int_truediv (current_quantity s - alert_threshold s) (consumption_rate s) ;;
  math_ceil x.

(** The guard of the refill alert. *)
Definition refill_due (s : stock_info) : bool :=
  (consumption_rate s >? 0) && (current_quantity s >? alert_threshold s).

(** [date.today() + timedelta(days=days_until_low)], at midnight. *)
Definition notification_start (s : stock_info) : result datetime :=
  days <- days_until_low s ;;
  delta <- timedelta_days days ;;
  notification_date <- date_add (date_of now) delta ;;
  Ok (mkdatetime notification_date midnight).

(** ** Calendar builder *)

Record recurrence := mkrule {
  freq : string;
  interval : option Z;
  byday : option string
}.

Record event := mkevent {
  summary : string;
  dtstart : datetime;
  rrule : option recurrence
}.

(** [st.session_state]: the values of the widgets by key. *)
Variable session_state : gmap string string.

Definition frequency_of (med : medication) : string :=
  default "daily" (session_state !! ("freq_" +:+ name med)).

Definition rule_of (frequency : string) : recurrence :=
  if String.eqb frequency "every_other_day" then mkrule "daily" (Some 2) None
  else if String.eqb frequency "weekly" then mkrule "weekly" None (Some "MO")
  else mkrule "daily" None None.

(** The body of the loop over the medications: the events it adds. *)
Definition medication_events (med : medication) : result (list event) :=
  start <- get_next_reminder med ;;
  let take := mkevent ("Take " +:+ name med) start (Some (rule_of (frequency_of med))) in
  match stock med with
  | Some s =>
      if refill_due s then
        refill_start <- notification_start s ;;
        Ok [take; mkevent ("Refill " +:+ name med) refill_start None]
      else Ok [take]
  | None => Ok [take]
  end.

(** [appt.get('description', 'Doctor Appointment')]. *)
Definition appointment_summary (appt : appointment) : string :=
  default "Doctor Appointment" (description appt).

Definition appointment_events (appt : appointment) : result (list event) :=
  start <- fromisoformat_or_raise (date_time appt) ;;
  Ok [mkevent (appointment_summary appt) start None].

(** [not selected_meds or med['name'] in selected_meds]; an absent selection
    ([None]) is the empty list, falsy as well. *)
Definition is_selected (selected_meds : list string) (med : medication) : bool :=
  match selected_meds with
  | [] => true
  | _ => existsb (String.eqb (name med)) selected_meds
  end.

(** The components of the calendar, in the order they are added; the
    serialisation to bytes is the [icalendar] library's. *)
Definition generate_calendar (data : json_value) (selected_meds : list string)
  : result (list event) :=
  all_meds <- get_medications data ;;
  let meds := List.filter (is_selected selected_meds) all_meds in
  med_events <- for_each medication_events meds ;;
  appts <- get_appointments data ;;
  appt_events <- for_each appointment_events appts ;;
  Ok (med_events ++ appt_events).

End Calendar.

(** ** The world of a script run

    The file [mediremind_data.json], the entry [st.cache_data] keeps for
    [load_data], [st.session_state.data] and what has been shown to the
    user. *)

(** The file at the fixed path.  The text of a readable file is kept as what
    [json.load] makes of it ([None]: [JSONDecodeError]); [json.dump] writes a
    text that loads back as the value dumped. *)
Inductive file_state :=
| Absent
| Denied
| Text (parsed : option json_value).

Inductive message :=
| StError (text : string)
| StErrorExn (prefix : string) (e : exn)
| StToast (text : string).

Record world := mkworld {
  file : file_state;
  cache : option (json_value * list message);
  session_data : option json_value;
  screen : list message
}.

Definition M (A : Type) : Type := world -> result A * world.

Definition ret {A} (a : A) : M A := fun w => (Ok a, w).

Definition raise {A} (e : exn) : M A := fun w => (Raise e, w).

Definition bindM {A B} (c : M A) (k : A -> M B) : M B :=
  fun w =>
    match c w with
    | (Ok a, w') => k a w'
    | (Raise e, w') => (Raise e, w')
    end.

Notation "x <~ c ;; k" := (bindM c (fun x => k))
  (at level 100, c at next level, right associativity) : py_scope.
Notation "c ;;; k" := (bindM c (fun _ => k))
  (at level 100, right associativity) : py_scope.

(** [try: body except ...]: [handler e] is the clause that catches [e], if
    any. *)
Definition try_except {A} (body : M A) (handler : exn -> option (M A)) : M A :=
  fun w =>
    match body w with
    | (Raise e, w') =>
        match handler e with
        | Some h => h w'
        | None => (Raise e, w')
        end
    | done => done
    end.

Fixpoint for_each_M {A} (body : A -> M unit) (l : list A) : M unit :=
  match l with
  | [] => ret tt
  | x :: rest => body x ;;; for_each_M body rest
  end.

Definition show (m : message) : M unit :=
  fun w => (Ok tt, mkworld (file w) (cache w) (session_data w) (screen w ++ [m])).

Definition st_error (text : string) : M unit := show (StError text).
Definition st_toast (text : string) : M unit := show (StToast text).
Definition st_stop {A} : M A := raise StopException.

Definition set_file (f : file_state) : M unit :=
  fun w => (Ok tt, mkworld f (cache w) (session_data w) (screen w)).

Definition set_session_data (data : json_value) : M unit :=
  fun w => (Ok tt, mkworld (file w) (cache w) (Some data) (screen w)).

(** [st.session_state.data]; the attribute is set before any page runs. *)
Definition get_session_data : M json_value :=
  fun w =>
    match session_data w with
    | Some data => (Ok data, w)
    | None => (Raise (KeyError "data"), w)
    end.

(** [with open(path, 'r') as f: json.load(f)]. *)
Definition json_load_file : M json_value :=
  fun w =>
    match file w with
    | Absent => (Raise FileNotFoundError, w)
    | Denied => (Raise PermissionError, w)
    | Text None => (Raise JSONDecodeError, w)
    | Text (Some v) => (Ok v, w)
    end.

(** [with open(path, 'w') as f: json.dump(data, f, indent=4)]. *)
Definition json_dump_file (data : json_value) : M unit :=
  fun w =>
    match file w with
    | Denied => (Raise PermissionError, w)
    | _ => set_file (Text (Some data)) w
    end.

(** [@st.cache_data] on a function without arguments: the first call that
    returns stores its value together with the messages it showed; every
    later call returns the stored value and shows the stored messages again,
    without running the function. *)
Definition cache_data (f : M json_value) : M json_value :=
  fun w =>
    match cache w with
    | Some (v, shown) =>
        (Ok v, mkworld (file w) (cache w) (session_data w) (screen w ++ shown))
    | None =>
        match f (mkworld (file w) None (session_data w) []) with
        | (Ok v, w') =>
            (Ok v, mkworld (file w') (Some (v, screen w')) (session_data w')
                           (screen w ++ screen w'))
        | (Raise e, w') =>
            (Raise e, mkworld (file w') None (session_data w') (screen w ++ screen w'))
        end
    end.

(** ** Store ([app.py]) *)

Definition load_data_body : M json_value :=
  try_except json_load_file
    (fun e =>
       if isa_FileNotFoundError e then
         Some (st_error "Data file not found. Starting with empty data." ;;;
               ret empty_document)
       else if isa_JSONDecodeError e then
         Some (st_error "Error parsing JSON file. Please check the format." ;;;
               ret empty_document)
       else None).

Definition load_data : M json_value := cache_data load_data_body.

Definition save_data (data : json_value) : M unit :=
  try_except (json_dump_file data)
    (fun e =>
       if isa_Exception e then Some (show (StErrorExn "Error saving data: " e))
       else None).

(** ** Store ([pa.py]) *)

Module Pa.

Definition load_data : M json_value :=
  try_except json_load_file
    (fun e => if isa_FileNotFoundError e then Some (ret empty_document) else None).

Definition save_data (data : json_value) : M unit := json_dump_file data.

End Pa.

(** ** Pages *)

(** Lines 99-100: the document is loaded when the session has none. *)
Definition startup : M unit :=
  fun w =>
    match session_data w with
    | Some _ => (Ok tt, w)
    | None => (data <~ load_data ;; set_session_data data) w
    end.

(** Line 274, after the page: the document is saved again. *)
Definition script_end : M unit :=
  data <~ get_session_data ;; save_data data.

(** [isinstance(new_data, dict)], ['medications' in new_data] and
    ['appointments' in new_data]. *)
Definition is_dict (v : json_value) : bool :=
  match v with JObject _ _ => true | JOther => false end.

Definition has_medications (v : json_value) : bool :=
  match v with JObject (Some _) _ => true | _ => false end.

Definition has_appointments (v : json_value) : bool :=
  match v with JObject _ (Some _) => true | _ => false end.

Definition lift {A} (c : result A) : M A := fun w => (c, w).

Section ExportImport.

Variable fromisoformat : string -> option datetime.

(** The uploaded file: [None] when nothing is uploaded, else what
    [json.load] makes of it ([None]: [JSONDecodeError]). *)
Definition json_load_upload (content : option json_value) : M json_value :=
  match content with
  | Some v => ret v
  | None => raise JSONDecodeError
  end.

(** The import handler of the Export/Import page (lines 236-258). *)
Definition import_data (uploaded_file : option (option json_value)) : M unit :=
  match uploaded_file with
  | None => ret tt
  | Some content =>
      try_except
        (new_data <~ json_load_upload content ;;
         (if negb (is_dict new_data) || negb (has_medications new_data)
             || negb (has_appointments new_data)
          then st_error "Invalid data format. Please upload a valid MediRemind JSON file."
          else ret tt) ;;;
         st_stop (A := unit) ;;;
         meds <~ lift (get_medications new_data) ;;
         for_each_M
           (fun med =>
              let '(is_valid, error) := validate_medication med in
              if negb is_valid
              then st_error ("Invalid medication: " +:+ error) ;;; st_stop
              else ret tt)
           meds ;;;
         appts <~ lift (get_appointments new_data) ;;
         for_each_M
           (fun appt =>
              let '(is_valid, error) := validate_appointment fromisoformat appt in
              if negb is_valid
              then st_error ("Invalid appointment: " +:+ error) ;;; st_stop
              else ret tt)
           appts ;;;
         set_session_data new_data ;;;
         data <~ get_session_data ;;
         save_data data ;;;
         st_toast "Data imported successfully")
        (fun e =>
           if isa_JSONDecodeError e then Some (st_error "Invalid JSON file format")
           else if isa_Exception e then Some (show (StErrorExn "Error importing data: " e))
           else None)
  end.

(** A run of the script on the Export/Import page with a file uploaded (or
    not): the handler, then line 274. *)
Definition export_import_run (uploaded_file : option (option json_value)) : M unit :=
  startup ;;; import_data uploaded_file ;;; script_end.

End ExportImport.

(** The Home page's list of upcoming events (lines 108-134). *)
Module Home.

Record upcoming := mkupcoming {
  start_time : datetime;
  summary : string
}.

(** [list.sort(key=...)] is stable: an entry goes after those that do not
    start later. *)
Fixpoint insert (x : upcoming) (l : list upcoming) : list upcoming :=
  match l with
  | [] => [x]
  | y :: rest =>
      if datetime_ltb (start_time x) (start_time y) then x :: l
      else y :: insert x rest
  end.

Definition sort (l : list upcoming) : list upcoming :=
  fold_left (fun sorted x => insert x sorted) l [].

Section Page.

Variable fromisoformat : string -> option datetime.
Variable now : datetime.

Definition medication_entries (med : medication) : result (list upcoming) :=
  next_reminder <- get_next_reminder now med ;;
  let take := mkupcoming next_reminder ("Take " +:+ name med) in
  match stock med with
  | Some s =>
      if refill_due s then
        refill_start <- notification_start now s ;;
        Ok [take; mkupcoming refill_start ("Refill " +:+ name med)]
      else Ok [take]
  | None => Ok [take]
  end.

Definition appointment_entries (appt : appointment) : result (list upcoming) :=
  date_time <- fromisoformat_or_raise fromisoformat (date_time appt) ;;
  Ok [mkupcoming date_time (default "Doctor Appointment" (description appt))].

Definition upcoming_events (data : json_value) : result (list upcoming) :=
  meds <- get_medications data ;;
  med_entries <- for_each medication_entries meds ;;
  appts <- get_appointments data ;;
  appt_entries <- for_each appointment_entries appts ;;
  Ok (med_entries ++ appt_entries).

(** The entry written as "Next event", if any. *)
Definition next_event (data : json_value) : result (option upcoming) :=
  entries <- upcoming_events data ;;
  Ok (head (sort entries)).

End Page.

End Home.

(** ** A reader of written timestamps

    [datetime.isoformat()] writes a naive timestamp as
    [YYYY-MM-DDTHH:MM:SS], followed by [.ffffff] when the microsecond is not
    zero; the application stores appointments in this form.  Every version
    of [fromisoformat] reads these strings back, and [read_isoformat] is
    [fromisoformat] on them; it refuses the other strings, of which a given
    version of Python accepts some.  It instantiates [fromisoformat] in the
    closed examples. *)

Definition is_leap (y : Z) : bool :=
  (y mod 4 =? 0) && (negb (y mod 100 =? 0) || (y mod 400 =? 0)).

Definition days_before_year (y : Z) : Z :=
  let p := y - 1 in p * 365 + p / 4 - p / 100 + p / 400.

Definition days_in_month (y m : Z) : Z :=
  if m =? 2 then (if is_leap y then 29 else 28)
  else if (m =? 4) || (m =? 6) || (m =? 9) || (m =? 11) then 30
  else 31.

Definition days_before_month (y m : Z) : Z :=
  nth (Z.to_nat m) [0; 0; 31; 59; 90; 120; 151; 181; 212; 243; 273; 304; 334] 0
  + (if (m >? 2) && is_leap y then 1 else 0).

(** [date(y, m, d).toordinal()]. *)
Definition ymd2ord (y m d : Z) : Z :=
  days_before_year y + days_before_month y m + d.

Fixpoint digits (n : nat) (acc : Z) (s : list ascii) : option (Z * list ascii) :=
  match n with
  | O => Some (acc, s)
  | S n' =>
      match s with
      | c :: rest => if is_digit c then digits n' (10 * acc + digit c) rest else None
      | [] => None
      end
  end.

Definition expect (c : ascii) (s : list ascii) : option (list ascii) :=
  match s with
  | c' :: rest => if Ascii.eqb c' c then Some rest else None
  | [] => None
  end.

Definition read_fraction (s : list ascii) : option Z :=
  match s with
  | [] => Some 0
  | _ =>
      rest ← expect "." s;
      '(us, rest) ← digits 6 0 rest;
      match rest with [] => Some us | _ => None end
  end.

Definition read_isoformat (s : string) : option datetime :=
  '(y, s) ← digits 4 0 (list_ascii_of_string s);
  s ← expect "-" s;
  '(m, s) ← digits 2 0 s;
  s ← expect "-" s;
  '(d, s) ← digits 2 0 s;
  s ← expect "T" s;
  '(hh, s) ← digits 2 0 s;
  s ← expect ":" s;
  '(mm, s) ← digits 2 0 s;
  s ← expect ":" s;
  '(ss, s) ← digits 2 0 s;
  us ← read_fraction s;
  if (1 <=? y) && (1 <=? m) && (m <=? 12) && (1 <=? d) && (d <=? days_in_month y m)
     && (hh <=? 23) && (mm <=? 59) && (ss <=? 59)
  then Some (mkdatetime (ymd2ord y m d) (mktime hh mm ss us))
  else None.

(** ** Vocabulary of the statements *)

(** An event that repeats: it carries a recurrence rule. *)
Definition is_recurring (ev : event) : bool :=
  match rrule ev with Some _ => true | None => false end.

(** The recurrence rule the configured frequency [configured] (the value
    under the key [freq_<name>], if any) calls for. *)
Definition rule_for (configured : option string) (rule : recurrence) : Prop :=
  (configured = Some "every_other_day" -> rule = mkrule "daily" (Some 2) None) /\
  (configured = Some "weekly" -> rule = mkrule "weekly" None (Some "MO")) /\
  (configured <> Some "every_other_day" -> configured <> Some "weekly" ->
   rule = mkrule "daily" None None).

(** The title an appointment is given: its description when the record has
    one, whatever it holds, and the default when it has none. *)
Definition titled (appt : appointment) (title : string) : Prop :=
  (description appt = None -> title = "Doctor Appointment") /\
  (forall text, description appt = Some text -> title = text).

(** ** Sample data *)

(** 2030-01-15 at noon. *)
Definition noon_2030 : datetime := mkdatetime 741092 (mktime 12 0 0 0).

(** A medication the validator accepts and the calendar cannot schedule. *)
Definition morning_pill : medication := mkmed "Aspirin" "8 am" None.

(** Two stocks of integers past [2^53]: about 27 * 10^15 units used three a
    day, and [2^53 + 1] units used [2^53] a day. *)
Definition large_stock : stock_info := mkstock 27021597764222984 3 0.

Definition fast_stock : stock_info := mkstock 9007199254740993 9007199254740992 0.

(** The events that do not repeat. *)
Definition one_time (evs : list event) : list event :=
  List.filter (fun ev => negb (is_recurring ev)) evs.

(** A document with one medication. *)
Definition one_pill : json_value := document [mkmed "Aspirin" "08:00:00" None] [].

(** A process that starts without a data file. *)
Definition fresh_world : world := mkworld Absent None None [].

(** A session that holds the empty document, saved and cached. *)
Definition running_world : world :=
  mkworld (Text (Some empty_document)) (Some (empty_document, []))
    (Some empty_document) [].

(** An appointment as the "Add New Appointment" button creates it: the
    description is the empty string. *)
Definition untitled_visit : appointment := mkappt "2030-02-01T09:30:00" (Some "").

(** ** The "Save Changes" and "Add New" buttons

    The handlers of the buttons of the Medications and Doctor Appointments
    pages, as they run once the button is pressed. *)

(** The loop of a "Save Changes" handler: every record is validated, the
    message of each invalid one is shown, and [has_errors] remembers whether
    there was one. *)
Fixpoint report_invalid {A} (validate : A -> bool * string) (records : list A)
    (has_errors : bool) : M bool :=
  match records with
  | [] => ret has_errors
  | record :: rest =>
      let '(is_valid, error) := validate record in
      if negb is_valid
      then st_error error ;;; report_invalid validate rest true
      else report_invalid validate rest has_errors
  end.

(** Lines 171-180. *)
Definition medications_save_changes : M unit :=
  data <~ get_session_data ;;
  meds <~ lift (get_medications data) ;;
  has_errors <~ report_invalid validate_medication meds false ;;
  if negb has_errors
  then data <~ get_session_data ;;
       save_data data ;;;
       st_toast "Changes saved successfully"
  else ret tt.


(** Lines 165-170: the record the "Add New Medication" button appends to
    the list of medications of the session. *)
Definition new_med : medication := mkmed "" "00:00:00" None.

Definition add_new_medication : M unit :=
  data <~ get_session_data ;;
  meds <~ lift (get_medications data) ;;
  match data with
  | JObject _ appts => set_session_data (JObject (Some (meds ++ [new_med])) appts)
  | JOther => raise TypeError
  end.

(** Line 161, [schedule_time.strftime('%H:%M:%S')]: each field on two
    digits. *)
Definition digit_char (d : Z) : ascii := ascii_of_N (Z.to_N (48 + d)).

Definition two_digits (n : Z) : string :=
  String (digit_char (n / 10)) (String (digit_char (n mod 10)) EmptyString).

Definition strftime_HMS (t : time) : string :=
  two_digits (hour t) +:+ ":" +:+ two_digits (minute t) +:+ ":" +:+ two_digits (second t).

(** A run of the script on the Help page, which only displays text: the
    start of the session (lines 99-100) and the end of the script (line
    274). *)
Definition help_page_run : M unit := startup ;;; script_end.

(** ** More vocabulary *)

(** The messages of the records a validator refuses, in order. *)
Definition refusals {A} (validate : A -> bool * string) (records : list A)
  : list string :=
  map (fun record => snd (validate record))
    (List.filter (fun record => negb (fst (validate record))) records).


(** A time of day within its ranges, and the integers [0 .. k-1]. *)
Definition time_in_range (t : time) : Prop :=
  0 <= hour t <= 23 /\ 0 <= minute t <= 59 /\ 0 <= second t <= 59.

Definition upto (k : nat) : list Z := map Z.of_nat (seq 0 k).

(** A medication whose stock calls for a refill alert. *)
Definition refill_is_due (med : medication) : bool :=
  match stock med with Some s => refill_due s | None => false end.

(** The titles a medication brings to the calendar. *)
Definition medication_titles (med : medication) : list string :=
  ("Take " +:+ name med)
  :: (if refill_is_due med then ["Refill " +:+ name med] else []).

(** An event as the Home page lists it. *)
Definition as_upcoming (ev : event) : Home.upcoming :=
  Home.mkupcoming (dtstart ev) (summary ev).

(** [a] does not start after [b]. *)
Definition not_later (a b : Home.upcoming) : Prop :=
  datetime_ltb (Home.start_time b) (Home.start_time a) = false.

(** The entries that start at [t]. *)
Definition starting_at (t : datetime) (l : list Home.upcoming) : list Home.upcoming :=
  List.filter
    (fun e => match datetime_compare (Home.start_time e) t with Eq => true | _ => false end)
    l.

(** ** More sample data *)

(** A session whose document holds a medication just added, still without a
    name, over a file that holds the document of before. *)
Definition draft_document : json_value :=
  document [mkmed "Aspirin" "08:00:00" None; new_med] [].

Definition draft_world : world := mkworld (Text (Some one_pill)) None (Some draft_document) [].

(** A session over a file that cannot be opened. *)
Definition locked_world : world := mkworld Denied None (Some one_pill) [].



(** A medication with the stock of the specification's example, and a
    document with it and one appointment. *)
Definition stocked_pill : medication := mkmed "Aspirin" "08:00:00" (Some (mkstock 30 5 10)).

Definition busy_document : json_value := document [stocked_pill] [untitled_visit].

(** A new session while [load_data] has the empty document cached and the
    file holds a later one. *)
Definition second_session : world :=
  mkworld (Text (Some one_pill)) (Some (empty_document, [])) None [].

(** * Properties *)

(** ** Stripping *)

Lemma lstrip_whitespace s : whitespace_only s = true -> lstrip s = "".
Proof.
  induction s as [|c s IH]; simpl; [reflexivity|].
  intros H. apply andb_true_iff in H as [Hc Hs]. rewrite Hc. auto.
Qed.

Lemma lstrip_keeps_text s :
  whitespace_only s = false ->
  exists c rest, lstrip s = String c rest /\ isspace c = false.
Proof.
  induction s as [|c s IH]; simpl; [discriminate|].
  destruct (isspace c) eqn:Hc; simpl; intros H; eauto.
Qed.

Lemma rstrip_keeps_text c rest : isspace c = false -> rstrip (String c rest) <> "".
Proof.
  intros Hc. simpl. destruct (rstrip rest); [rewrite Hc|]; discriminate.
Qed.

(** [not name.strip()] holds exactly of the names made of whitespace only. *)
Lemma strip_falsy_iff_whitespace s : str_falsy (strip s) = whitespace_only s.
Proof.
  unfold strip. destruct (whitespace_only s) eqn:Hs.
  - rewrite (lstrip_whitespace s Hs). reflexivity.
  - destruct (lstrip_keeps_text s Hs) as (c & rest & -> & Hc).
    pose proof (rstrip_keeps_text c rest Hc) as Hne.
    destruct (rstrip (String c rest)); [congruence | reflexivity].
Qed.

(** ** The validator of medications *)

(** C8: [validate_medication] refuses a name that is empty or made of
    whitespace only; with a stock it then refuses a negative quantity, a
    consumption rate that is not positive and a negative threshold, in that
    order, with the message of the first check that fails; it accepts every
    other record. *)
Theorem validate_medication_first_failure (med : medication) :
  (whitespace_only (name med) = true ->
   validate_medication med = (false, "Medication name cannot be empty")) /\
  (whitespace_only (name med) = false ->
   match stock med with
   | None => validate_medication med = (true, "")
   | Some s =>
       (current_quantity s < 0 ->
        validate_medication med = (false, "Current quantity cannot be negative")) /\
       (0 <= current_quantity s -> consumption_rate s <= 0 ->
        validate_medication med = (false, "Consumption rate must be positive")) /\
       (0 <= current_quantity s -> 0 < consumption_rate s -> alert_threshold s < 0 ->
        validate_medication med = (false, "Alert threshold cannot be negative")) /\
       (0 <= current_quantity s -> 0 < consumption_rate s -> 0 <= alert_threshold s ->
        validate_medication med = (true, ""))
   end).
Proof.
  unfold validate_medication. rewrite strip_falsy_iff_whitespace.
  split; intros Hname; rewrite Hname; [reflexivity|].
  destruct (stock med) as [s|]; [|reflexivity].
  repeat split; intros;
    repeat match goal with
           | |- context [?a <? ?b] => destruct (Z.ltb_spec a b); try lia
           | |- context [?a <=? ?b] => destruct (Z.leb_spec a b); try lia
           end; reflexivity.
Qed.

(** The two records the specification tests the validator on. *)
Example validate_medication_empty_name :
  validate_medication (mkmed "" "00:00:00" None)
  = (false, "Medication name cannot be empty").
Proof. reflexivity. Qed.

Example validate_medication_zero_rate :
  validate_medication (mkmed "Aspirin" "08:00:00" (Some (mkstock 30 0 10)))
  = (false, "Consumption rate must be positive").
Proof. reflexivity. Qed.

(** ** The validator of appointments *)

(** C7: [validate_appointment] fails, with the message "Invalid date/time
    format", exactly when the [date_time] of the record does not parse, and
    succeeds otherwise. *)
Theorem validate_appointment_iff (fromisoformat : string -> option datetime)
    (appt : appointment) :
  (validate_appointment fromisoformat appt = (false, "Invalid date/time format")
   <-> fromisoformat (date_time appt) = None) /\
  (validate_appointment fromisoformat appt = (true, "")
   <-> fromisoformat (date_time appt) <> None).
Proof.
  unfold validate_appointment.
  destruct (fromisoformat (date_time appt)) as [dt|]; split; split;
    intros H; try reflexivity; try discriminate; congruence.
Qed.

Example validate_appointment_invalid :
  validate_appointment read_isoformat (mkappt "invalid" (Some ""))
  = (false, "Invalid date/time format").
Proof. reflexivity. Qed.

(** ** Loops *)

Lemma bind_ok {A B} (c : result A) (k : A -> result B) (b : B) :
  bind c k = Ok b <-> exists a, c = Ok a /\ k a = Ok b.
Proof.
  destruct c as [a|e]; simpl; split.
  - eauto.
  - intros (a' & [= <-] & H). exact H.
  - discriminate.
  - intros (a' & H & _). discriminate.
Qed.

(** A loop returns exactly when each of its iterations does, and then
    yields what they produced, in order. *)
Lemma for_each_ok {A B} (body : A -> result (list B)) (l : list A) (out : list B) :
  for_each body l = Ok out <->
  exists outs, Forall2 (fun x o => body x = Ok o) l outs /\ out = concat outs.
Proof.
  revert out. induction l as [|x l IH]; intros out; simpl.
  - split.
    + intros [= <-]. exists []. split; constructor.
    + intros (outs & H & ->). inversion H. reflexivity.
  - rewrite bind_ok. split.
    + intros (o & Hx & H). apply bind_ok in H as (os & Hl & [= <-]).
      apply IH in Hl as (outs & HF & ->).
      exists (o :: outs). split; [constructor; assumption | reflexivity].
    + intros (outs & HF & ->). inversion HF as [|? o ? os Hx HF']; subst.
      exists o. split; [assumption|].
      apply bind_ok. exists (concat os). split; [|reflexivity].
      apply IH. eauto.
Qed.

(** An iteration that raises makes the loop raise. *)
Lemma for_each_raises {A B} (body : A -> result (list B)) (l : list A) (x : A) :
  In x l -> (forall o, body x <> Ok o) -> forall out, for_each body l <> Ok out.
Proof.
  intros Hin Hx out H. apply for_each_ok in H as (outs & HF & _).
  induction HF as [|y o l' os Hy HF IH]; [destruct Hin|].
  destruct Hin as [->|Hin]; [exact (Hx o Hy) | exact (IH Hin)].
Qed.

(** ** The next reminder *)

Lemma lex_opp c1 c2 : CompOpp (lex c1 c2) = lex (CompOpp c1) (CompOpp c2).
Proof. destruct c1; reflexivity. Qed.

Lemma time_compare_antisym a b : time_compare b a = CompOpp (time_compare a b).
Proof.
  unfold time_compare. rewrite !lex_opp, <- !Z.compare_antisym. reflexivity.
Qed.

Lemma time_compare_refl a : time_compare a a = Eq.
Proof. unfold time_compare. rewrite !Z.compare_refl. reflexivity. Qed.

(** On the day of [now], a schedule time is before [now] exactly when it is
    before the time of day of [now]. *)
Lemma combine_ltb_today now t :
  datetime_ltb (combine (date_of now) t) now = time_ltb t (time_of now).
Proof.
  unfold datetime_ltb, datetime_compare, time_ltb. simpl.
  rewrite Z.compare_refl. reflexivity.
Qed.

Lemma datetime_add_one_day d t :
  1 <= d < MAXORDINAL -> datetime_add (mkdatetime d t) 1 = Ok (mkdatetime (d + 1) t).
Proof.
  intros Hd. unfold datetime_add, date_add. simpl.
  destruct (Z.leb_spec 1 (d + 1)); [|lia].
  destruct (Z.leb_spec (d + 1) MAXORDINAL); [|lia]. reflexivity.
Qed.

Lemma datetime_add_ok dt delta r :
  datetime_add dt delta = Ok r ->
  date_of r = date_of dt + delta /\ time_of r = time_of dt.
Proof.
  unfold datetime_add, date_add.
  destruct ((1 <=? date_of dt + delta) && (date_of dt + delta <=? MAXORDINAL));
    cbn [bind]; [|discriminate].
  intros [= <-]. split; reflexivity.
Qed.

(** Before the last day of the calendar, a schedule that parses has a next
    reminder. *)
Lemma get_next_reminder_returns now med t :
  strptime_HMS (schedule med) = Some t ->
  1 <= date_of now < MAXORDINAL ->
  exists r, get_next_reminder now med = Ok r.
Proof.
  intros Hparse Hday. unfold get_next_reminder. rewrite Hparse.
  change (timedelta_days 1) with (Ok 1). cbn [bind]. unfold combine.
  destruct (datetime_ltb _ now); [|eauto].
  rewrite (datetime_add_one_day _ _ Hday). eauto.
Qed.

(** C3: for a schedule that parses as a time of day [t], the next reminder
    is [t] on the date of [now], moved by exactly one day when that is
    strictly before [now] and unchanged otherwise: the following day when
    [t] is strictly earlier than the time of day of [now], today when it is
    later or equal, and never before [now]. *)
Theorem get_next_reminder_next_occurrence (now : datetime) (med : medication) (t : time) :
  strptime_HMS (schedule med) = Some t ->
  get_next_reminder now med
  = (if datetime_ltb (combine (date_of now) t) now
     then datetime_add (combine (date_of now) t) 1
     else Ok (combine (date_of now) t)) /\
  (1 <= date_of now < MAXORDINAL -> exists r, get_next_reminder now med = Ok r) /\
  (forall r, get_next_reminder now med = Ok r ->
     (time_ltb t (time_of now) = true ->
      date_of r = date_of now + 1 /\ time_of r = t) /\
     (time_ltb t (time_of now) = false ->
      date_of r = date_of now /\ time_of r = t) /\
     datetime_leb now r = true).
Proof.
  intros Hparse. unfold get_next_reminder. rewrite Hparse.
  change (timedelta_days 1) with (Ok 1). cbn [bind].
  split; [reflexivity|].
  rewrite combine_ltb_today. unfold combine.
  destruct (time_ltb t (time_of now)) eqn:Hlt.
  - split.
    + intros Hday. rewrite (datetime_add_one_day _ _ Hday). eauto.
    + intros r Hr. apply datetime_add_ok in Hr as [Hd Ht]. cbn [date_of time_of] in Hd, Ht.
      repeat split; try assumption; try discriminate.
      unfold datetime_leb, datetime_compare. rewrite Hd.
      replace (date_of now ?= date_of now + 1) with Lt; [reflexivity|].
      symmetry. apply Z.compare_lt_iff. lia.
  - split; [eauto|].
    intros r [= <-]. repeat split; try discriminate.
    unfold datetime_leb, datetime_compare. cbn [date_of time_of].
    rewrite Z.compare_refl. cbn [lex].
    unfold time_ltb in Hlt. rewrite time_compare_antisym.
    destruct (time_compare t (time_of now)); [reflexivity | discriminate | reflexivity].
Qed.

(** On the last date of the calendar there is no following day: the
    addition raises. *)
Lemma get_next_reminder_last_day (now : datetime) (med : medication) (t : time) :
  strptime_HMS (schedule med) = Some t ->
  date_of now = MAXORDINAL ->
  time_ltb t (time_of now) = true ->
  get_next_reminder now med = Raise OverflowError.
Proof.
  intros Hparse Hday Hlt. unfold get_next_reminder.
  rewrite Hparse, combine_ltb_today, Hlt. cbn [combine].
  unfold datetime_add, date_add. cbn [date_of]. rewrite Hday. reflexivity.
Qed.

Lemma get_next_reminder_next_occurrence_witness :
  exists r,
    get_next_reminder noon_2030 (mkmed "Aspirin" "08:00:00" None) = Ok r /\
    date_of r = 741093 /\ datetime_leb noon_2030 r = true.
Proof.
  destruct (get_next_reminder_next_occurrence noon_2030
              (mkmed "Aspirin" "08:00:00" None) (mktime 8 0 0 0))
    as (_ & Hreturns & Hresult).
  - reflexivity.
  - destruct Hreturns as [r Hr].
    + unfold MAXORDINAL. simpl. lia.
    + exists r. split; [exact Hr|].
      destruct (Hresult r Hr) as (Hearlier & _ & Hle).
      split; [|exact Hle]. apply Hearlier. reflexivity.
Defined.

(** ** The calendar *)

Lemma generate_calendar_ok fromisoformat now session_state data selected_meds evs :
  generate_calendar fromisoformat now session_state data selected_meds = Ok evs <->
  exists meds appts med_events appt_events,
    get_medications data = Ok meds /\
    for_each (medication_events now session_state)
      (List.filter (is_selected selected_meds) meds) = Ok med_events /\
    get_appointments data = Ok appts /\
    for_each (appointment_events fromisoformat) appts = Ok appt_events /\
    evs = med_events ++ appt_events.
Proof.
  unfold generate_calendar. rewrite bind_ok. split.
  - intros (meds & Hm & H). apply bind_ok in H as (mevs & Hme & H).
    apply bind_ok in H as (appts & Ha & H). apply bind_ok in H as (aevs & Hae & [= <-]).
    exists meds, appts, mevs, aevs. auto.
  - intros (meds & appts & mevs & aevs & Hm & Hme & Ha & Hae & ->).
    exists meds. split; [assumption|]. rewrite Hme. cbn [bind].
    rewrite Ha. cbn [bind]. rewrite Hae. reflexivity.
Qed.

Lemma rule_of_rule_for session_state med :
  rule_for (session_state !! ("freq_" +:+ name med))
    (rule_of (frequency_of session_state med)).
Proof.
  unfold rule_for, rule_of, frequency_of.
  destruct (session_state !! ("freq_" +:+ name med)) as [fq|];
    cbv [default from_option id].
  - destruct (String.eqb_spec fq "every_other_day") as [->|Hne1].
    + repeat split; [discriminate | congruence].
    + destruct (String.eqb_spec fq "weekly") as [->|Hne2].
      * repeat split; [discriminate | congruence].
      * repeat split; congruence.
  - repeat split; discriminate.
Qed.

(** What one medication adds: its "Take" event, then at most one "Refill"
    event, which does not repeat. *)
Lemma medication_events_ok now session_state med out :
  medication_events now session_state med = Ok out ->
  exists start,
    get_next_reminder now med = Ok start /\
    let take := mkevent ("Take " +:+ name med) start
                  (Some (rule_of (frequency_of session_state med))) in
    (out = [take] /\ (forall s, stock med = Some s -> refill_due s = false)) \/
    (exists s refill_start,
        stock med = Some s /\ refill_due s = true /\
        notification_start now s = Ok refill_start /\
        out = [take; mkevent ("Refill " +:+ name med) refill_start None]).
Proof.
  unfold medication_events. intros H. apply bind_ok in H as (start & Hstart & H).
  exists start. split; [assumption|]. cbn zeta.
  destruct (stock med) as [s|].
  - destruct (refill_due s) eqn:Hdue.
    + apply bind_ok in H as (rs & Hrs & [= <-]). right. exists s, rs. auto.
    + injection H as <-. left. split; [reflexivity|]. intros s' [= <-]. assumption.
  - injection H as <-. left. split; [reflexivity | discriminate].
Qed.

Lemma appointment_events_ok fromisoformat appt out :
  appointment_events fromisoformat appt = Ok out <->
  exists start,
    fromisoformat (date_time appt) = Some start /\
    out = [mkevent (appointment_summary appt) start None].
Proof.
  unfold appointment_events, fromisoformat_or_raise.
  destruct (fromisoformat (date_time appt)) as [dt|]; cbn [bind]; split.
  - intros [= <-]. eauto.
  - intros (start & [= <-] & ->). reflexivity.
  - discriminate.
  - intros (start & Hs & _). discriminate.
Qed.

Lemma medication_loop_recurring now session_state meds out :
  for_each (medication_events now session_state) meds = Ok out ->
  Forall2
    (fun med ev =>
       summary ev = "Take " +:+ name med /\
       get_next_reminder now med = Ok (dtstart ev) /\
       exists rule, rrule ev = Some rule /\
                    rule_for (session_state !! ("freq_" +:+ name med)) rule)
    meds (List.filter is_recurring out).
Proof.
  revert out. induction meds as [|med meds IH]; intros out H; simpl in H.
  - injection H as <-. constructor.
  - apply bind_ok in H as (o & Hmed & H). apply bind_ok in H as (os & Hrest & [= <-]).
    apply medication_events_ok in Hmed as (start & Hstart & Hout). cbn zeta in Hout.
    rewrite List.filter_app.
    assert (List.filter is_recurring o
            = [mkevent ("Take " +:+ name med) start
                 (Some (rule_of (frequency_of session_state med)))]) as ->.
    { destruct Hout as [[-> _]|(s & rs & _ & _ & _ & ->)]; reflexivity. }
    cbn [app]. constructor; [|apply IH; assumption].
    cbn [summary dtstart rrule]. repeat split; try assumption.
    eexists. split; [reflexivity | apply rule_of_rule_for].
Qed.

Lemma appointment_loop_events fromisoformat appts out :
  for_each (appointment_events fromisoformat) appts = Ok out ->
  Forall2
    (fun appt ev =>
       summary ev = appointment_summary appt /\
       fromisoformat (date_time appt) = Some (dtstart ev) /\
       rrule ev = None)
    appts out.
Proof.
  revert out. induction appts as [|appt appts IH]; intros out H; simpl in H.
  - injection H as <-. constructor.
  - apply bind_ok in H as (o & Happt & H). apply bind_ok in H as (os & Hrest & [= <-]).
    apply appointment_events_ok in Happt as (start & Hstart & ->).
    cbn [app]. constructor; [|apply IH; assumption].
    cbn [summary dtstart rrule]. auto.
Qed.

Lemma appointment_loop_not_recurring fromisoformat appts out :
  for_each (appointment_events fromisoformat) appts = Ok out ->
  List.filter is_recurring out = [].
Proof.
  intros H. apply appointment_loop_events in H.
  induction H as [|appt ev appts evs (_ & _ & Hr) _ IH]; [reflexivity|].
  cbn [List.filter]. unfold is_recurring at 1. rewrite Hr. exact IH.
Qed.

Lemma for_each_returns {A B} (body : A -> result (list B)) (l : list A) :
  (forall x, In x l -> exists o, body x = Ok o) -> exists out, for_each body l = Ok out.
Proof.
  induction l as [|x l IH]; intros H; simpl.
  - eauto.
  - destruct (H x) as [o Ho]; [left; reflexivity|].
    destruct IH as [os Hos]; [intros y Hy; apply H; right; exact Hy|].
    rewrite Ho, Hos. cbn [bind]. eauto.
Qed.

(** A medication is ready for the calendar when its schedule parses and,
    if a refill alert is due, the date of the alert can be computed. *)
Lemma medication_events_returns now session_state med t :
  strptime_HMS (schedule med) = Some t ->
  1 <= date_of now < MAXORDINAL ->
  (forall s, stock med = Some s -> refill_due s = true ->
             exists start, notification_start now s = Ok start) ->
  exists out, medication_events now session_state med = Ok out.
Proof.
  intros Hparse Hday Hstock. unfold medication_events.
  destruct (get_next_reminder_returns now med t Hparse Hday) as [r ->]. cbn [bind].
  destruct (stock med) as [s|]; [|eauto].
  destruct (refill_due s) eqn:Hdue; [|eauto].
  destruct (Hstock s eq_refl Hdue) as [start ->]. cbn [bind]. eauto.
Qed.

(** C5: the recurring events of a generated calendar are the "Take" events
    of the selected medications, one for each and in their order, each
    starting at the medication's next reminder and repeating by the rule its
    configured frequency calls for (every other day: daily with interval 2;
    weekly: weekly on Monday; anything else, or nothing configured: daily);
    the calendar is generated whenever every selected medication is ready
    and every appointment parses; and one medication without stock,
    configured weekly, with no appointment, gives exactly one event, its
    weekly-Monday "Take" event. *)
Theorem generate_calendar_take_events
    (fromisoformat : string -> option datetime) (now : datetime)
    (session_state : gmap string string) :
  (forall data selected_meds evs,
     generate_calendar fromisoformat now session_state data selected_meds = Ok evs ->
     exists meds,
       get_medications data = Ok meds /\
       Forall2
         (fun med ev =>
            summary ev = "Take " +:+ name med /\
            get_next_reminder now med = Ok (dtstart ev) /\
            exists rule, rrule ev = Some rule /\
                         rule_for (session_state !! ("freq_" +:+ name med)) rule)
         (List.filter (is_selected selected_meds) meds)
         (List.filter is_recurring evs)) /\
  (forall meds appts selected_meds,
     1 <= date_of now < MAXORDINAL ->
     (forall med, In med meds -> is_selected selected_meds med = true ->
        (exists t, strptime_HMS (schedule med) = Some t) /\
        (forall s, stock med = Some s -> refill_due s = true ->
                   exists start, notification_start now s = Ok start)) ->
     (forall appt, In appt appts -> exists dt, fromisoformat (date_time appt) = Some dt) ->
     exists evs,
       generate_calendar fromisoformat now session_state (document meds appts)
         selected_meds = Ok evs) /\
  (forall med_name med_schedule t selected_meds,
     strptime_HMS med_schedule = Some t ->
     1 <= date_of now < MAXORDINAL ->
     session_state !! ("freq_" +:+ med_name) = Some "weekly" ->
     is_selected selected_meds (mkmed med_name med_schedule None) = true ->
     exists start,
       generate_calendar fromisoformat now session_state
         (document [mkmed med_name med_schedule None] []) selected_meds
       = Ok [mkevent ("Take " +:+ med_name) start
               (Some (mkrule "weekly" None (Some "MO")))]).
Proof.
  split; [|split].
  - intros data sel evs H.
    apply generate_calendar_ok in H as (meds & appts & mevs & aevs & Hm & Hme & _ & Hae & ->).
    exists meds. split; [assumption|].
    rewrite List.filter_app, (appointment_loop_not_recurring _ _ _ Hae), app_nil_r.
    apply medication_loop_recurring. assumption.
  - intros meds appts sel Hday Hmeds Happts.
    destruct (for_each_returns (medication_events now session_state)
                (List.filter (is_selected sel) meds)) as [mevs Hmevs].
    { intros med Hin. apply List.filter_In in Hin as [Hin Hsel].
      destruct (Hmeds med Hin Hsel) as [[t Ht] Hstock].
      eapply medication_events_returns; eassumption. }
    destruct (for_each_returns (appointment_events fromisoformat) appts) as [aevs Haevs].
    { intros appt Hin. destruct (Happts appt Hin) as [dt Hdt].
      eexists. apply appointment_events_ok. eauto. }
    exists (mevs ++ aevs). apply generate_calendar_ok.
    exists meds, appts, mevs, aevs. auto.
  - intros n sched t sel Hparse Hday Hfreq Hsel.
    destruct (get_next_reminder_returns now (mkmed n sched None) t Hparse Hday)
      as [start Hstart]. exists start.
    unfold generate_calendar, document. cbn [get_medications get_appointments bind List.filter].
    rewrite Hsel. cbn [for_each bind]. unfold medication_events. rewrite Hstart.
    cbn [bind stock name app]. unfold frequency_of, rule_of. cbn [name].
    rewrite Hfreq. reflexivity.
Qed.

(** The calendar the specification tests: schedule "08:00:00", weekly. *)
Example generate_calendar_weekly :
  generate_calendar read_isoformat noon_2030 {[ "freq_Aspirin" := "weekly" ]}
    (document [mkmed "Aspirin" "08:00:00" None] []) []
  = Ok [mkevent "Take Aspirin" (mkdatetime 741093 (mktime 8 0 0 0))
          (Some (mkrule "weekly" None (Some "MO")))].
Proof. vm_compute. reflexivity. Qed.

(** ** Titles of appointments *)

Lemma upcoming_events_ok fromisoformat now data entries :
  Home.upcoming_events fromisoformat now data = Ok entries <->
  exists meds appts med_entries appt_entries,
    get_medications data = Ok meds /\
    for_each (Home.medication_entries now) meds = Ok med_entries /\
    get_appointments data = Ok appts /\
    for_each (Home.appointment_entries fromisoformat) appts = Ok appt_entries /\
    entries = med_entries ++ appt_entries.
Proof.
  unfold Home.upcoming_events. rewrite bind_ok. split.
  - intros (meds & Hm & H). apply bind_ok in H as (mes & Hme & H).
    apply bind_ok in H as (appts & Ha & H). apply bind_ok in H as (aes & Hae & [= <-]).
    exists meds, appts, mes, aes. auto.
  - intros (meds & appts & mes & aes & Hm & Hme & Ha & Hae & ->).
    exists meds. split; [assumption|]. rewrite Hme. cbn [bind].
    rewrite Ha. cbn [bind]. rewrite Hae. reflexivity.
Qed.

Lemma appointment_loop_entries fromisoformat appts out :
  for_each (Home.appointment_entries fromisoformat) appts = Ok out ->
  Forall2
    (fun appt entry =>
       Home.summary entry = default "Doctor Appointment" (description appt) /\
       fromisoformat (date_time appt) = Some (Home.start_time entry))
    appts out.
Proof.
  revert out. induction appts as [|appt appts IH]; intros out H; simpl in H.
  - injection H as <-. constructor.
  - apply bind_ok in H as (o & Happt & H). apply bind_ok in H as (os & Hrest & [= <-]).
    unfold Home.appointment_entries, fromisoformat_or_raise in Happt.
    destruct (fromisoformat (date_time appt)) as [dt|] eqn:Hdt; [|discriminate].
    cbn [bind] in Happt. injection Happt as <-.
    cbn [app]. constructor; [|apply IH; assumption].
    cbn [Home.summary Home.start_time]. auto.
Qed.

Lemma default_titled appt : titled appt (default "Doctor Appointment" (description appt)).
Proof.
  unfold titled. destruct (description appt) as [d|]; cbv [default from_option id];
    split; congruence.
Qed.

(** C6, as stated, fails: an appointment whose description is the empty
    string gets the empty title, in the calendar and on the Home page, not
    "Doctor Appointment". *)
Lemma blank_description_gives_blank_title :
  generate_calendar read_isoformat noon_2030 ∅ (document [] [untitled_visit]) []
  = Ok [mkevent "" (mkdatetime 741109 (mktime 9 30 0 0)) None] /\
  Home.upcoming_events read_isoformat noon_2030 (document [] [untitled_visit])
  = Ok [Home.mkupcoming (mkdatetime 741109 (mktime 9 30 0 0)) ""].
Proof. split; vm_compute; reflexivity. Qed.

(** C6, amended: the events a generated calendar ends with are those of the
    appointments, one for each and in their order, none recurring, each
    starting at the appointment's date and titled "Doctor Appointment" when
    the record has no description and by the description, blank or not, when
    it has one; the Home page lists the appointments with the same titles;
    and both are produced whenever the medications are and every appointment
    parses. *)
Theorem appointment_titles
    (fromisoformat : string -> option datetime) (now : datetime)
    (session_state : gmap string string) :
  (forall data selected_meds evs,
     generate_calendar fromisoformat now session_state data selected_meds = Ok evs ->
     exists appts med_events appt_events,
       get_appointments data = Ok appts /\
       evs = med_events ++ appt_events /\
       Forall2
         (fun appt ev =>
            titled appt (summary ev) /\
            fromisoformat (date_time appt) = Some (dtstart ev) /\
            rrule ev = None)
         appts appt_events) /\
  (forall data entries,
     Home.upcoming_events fromisoformat now data = Ok entries ->
     exists appts med_entries appt_entries,
       get_appointments data = Ok appts /\
       entries = med_entries ++ appt_entries /\
       Forall2
         (fun appt entry =>
            titled appt (Home.summary entry) /\
            fromisoformat (date_time appt) = Some (Home.start_time entry))
         appts appt_entries) /\
  (forall appts,
     (forall appt, In appt appts -> exists dt, fromisoformat (date_time appt) = Some dt) ->
     (exists evs,
        generate_calendar fromisoformat now session_state (document [] appts) [] = Ok evs /\
        length evs = length appts) /\
     (exists entries,
        Home.upcoming_events fromisoformat now (document [] appts) = Ok entries /\
        length entries = length appts)).
Proof.
  split; [|split].
  - intros data sel evs H.
    apply generate_calendar_ok in H as (meds & appts & mevs & aevs & _ & _ & Ha & Hae & ->).
    exists appts, mevs, aevs. repeat split; try assumption.
    apply appointment_loop_events in Hae.
    eapply Forall2_impl; [exact Hae|].
    intros appt ev (Hs & Hd & Hr). rewrite Hs. unfold appointment_summary.
    auto using default_titled.
  - intros data entries H.
    apply upcoming_events_ok in H as (meds & appts & mes & aes & _ & _ & Ha & Hae & ->).
    exists appts, mes, aes. repeat split; try assumption.
    apply appointment_loop_entries in Hae.
    eapply Forall2_impl; [exact Hae|].
    intros appt e (Hs & Hd). rewrite Hs. auto using default_titled.
  - intros appts Hparse. split.
    + destruct (for_each_returns (appointment_events fromisoformat) appts) as [aevs Haevs].
      { intros appt Hin. destruct (Hparse appt Hin) as [dt Hdt].
        eexists. apply appointment_events_ok. eauto. }
      exists aevs. split.
      * apply generate_calendar_ok. exists [], appts, [], aevs. auto.
      * apply appointment_loop_events in Haevs. symmetry. exact (Forall2_length _ _ _ Haevs).
    + destruct (for_each_returns (Home.appointment_entries fromisoformat) appts)
        as [aes Haes].
      { intros appt Hin. destruct (Hparse appt Hin) as [dt Hdt].
        unfold Home.appointment_entries, fromisoformat_or_raise. rewrite Hdt.
        cbn [bind]. eauto. }
      exists aes. split.
      * apply upcoming_events_ok. exists [], appts, [], aes. auto.
      * apply appointment_loop_entries in Haes. symmetry. exact (Forall2_length _ _ _ Haes).
Qed.

(** ** Validation and the schedule *)

Lemma get_next_reminder_unparsed now med :
  strptime_HMS (schedule med) = None -> get_next_reminder now med = Raise ValueError.
Proof. intros H. unfold get_next_reminder. rewrite H. reflexivity. Qed.

(** C10: [validate_medication] does not look at the schedule: changing the
    schedule of a record changes nothing to its result, so a record with a
    name that is not blank and a stock that is valid or absent is accepted
    whatever its schedule; and a selected medication whose schedule does not
    parse as '%H:%M:%S' makes the generation of the calendar fail, as it
    does for a document the validator accepts. *)
Theorem validate_medication_ignores_schedule :
  (forall med other_schedule,
     validate_medication (mkmed (name med) other_schedule (stock med))
     = validate_medication med) /\
  (forall med_name med_schedule med_stock,
     whitespace_only med_name = false ->
     (forall s, med_stock = Some s ->
        0 <= current_quantity s /\ 0 < consumption_rate s /\ 0 <= alert_threshold s) ->
     validate_medication (mkmed med_name med_schedule med_stock) = (true, "")) /\
  (forall fromisoformat now session_state meds appts selected_meds med,
     In med meds -> is_selected selected_meds med = true ->
     strptime_HMS (schedule med) = None ->
     exists e,
       generate_calendar fromisoformat now session_state (document meds appts)
         selected_meds = Raise e) /\
  (validate_medication morning_pill = (true, "") /\
   strptime_HMS (schedule morning_pill) = None /\
   forall fromisoformat now session_state,
     generate_calendar fromisoformat now session_state (document [morning_pill] []) []
     = Raise ValueError).
Proof.
  split; [|split; [|split]].
  - intros med other. reflexivity.
  - intros n sch st Hname Hstock. unfold validate_medication. cbn [name stock].
    rewrite strip_falsy_iff_whitespace, Hname.
    destruct st as [s|]; [|reflexivity].
    destruct (Hstock s eq_refl) as (Hq & Hr & Ht).
    destruct (Z.ltb_spec (current_quantity s) 0); [lia|].
    destruct (Z.leb_spec (consumption_rate s) 0); [lia|].
    destruct (Z.ltb_spec (alert_threshold s) 0); [lia|]. reflexivity.
  - intros f now ss meds appts sel med Hin Hsel Hparse.
    destruct (generate_calendar f now ss (document meds appts) sel) as [evs|e] eqn:H;
      [exfalso | eauto].
    apply generate_calendar_ok in H as (meds' & _ & mevs & _ & [= <-] & Hme & _).
    revert Hme. apply for_each_raises with (x := med).
    + apply List.filter_In. auto.
    + intros o. unfold medication_events.
      rewrite (get_next_reminder_unparsed _ _ Hparse). discriminate.
  - repeat split; reflexivity.
Qed.

(** ** The store *)



(** Without a cached value, what is saved is what is loaded next, unless the
    file cannot be opened. *)
Lemma save_then_load_uncached (data : json_value) (w : world) :
  cache w = None -> file w <> Denied ->
  fst ((save_data data ;;; load_data) w) = Ok data.
Proof.
  destruct w as [f c d scr]. cbn [cache file]. intros -> Hf.
  destruct f as [| |p]; [reflexivity | congruence | reflexivity].
Qed.

(** [pa.py]: what is saved is what is loaded next. *)
Lemma pa_save_then_load (data : json_value) (w : world) :
  file w <> Denied ->
  fst ((Pa.save_data data ;;; Pa.load_data) w) = Ok data.
Proof.
  destruct w as [f c d scr]. cbn [file]. intros Hf.
  destruct f as [| |p]; [reflexivity | congruence | reflexivity].
Qed.

(** C9 fails in [app.py]: once [load_data] has run, as it does when the
    session starts, a later [load_data] returns the cached document and not
    the one saved in between. *)
Theorem save_then_load_returns_cached :
  let run := (startup ;;; save_data one_pill ;;; load_data) fresh_world in
  fst run = Ok empty_document /\ file (snd run) = Text (Some one_pill).
Proof. split; reflexivity. Qed.

(** The embedded test [test_load_data_file_not_found] removes the file and
    expects the empty document; after a session has loaded a file, the cached
    document is returned instead. *)
Example load_after_removal_returns_cached :
  fst ((startup ;;; set_file Absent ;;; load_data)
         (mkworld (Text (Some one_pill)) None None []))
  = Ok one_pill.
Proof. reflexivity. Qed.

(** ** The import *)

(** Whatever JSON value is uploaded, the handler ends at [st.stop()]: the
    document of the session and the file stay as they were, and a value of
    the right shape leaves no trace at all. *)
Lemma import_data_always_stops fromisoformat (new_data : json_value) (w : world) :
  exists w',
    import_data fromisoformat (Some (Some new_data)) w = (Raise StopException, w') /\
    session_data w' = session_data w /\ file w' = file w /\ cache w' = cache w /\
    (has_medications new_data = true -> has_appointments new_data = true -> w' = w).
Proof.
  destruct w as [f c d scr].
  destruct new_data as [|[meds|] [appts|]]; eexists; (split; [reflexivity|]);
    cbn [session_data file cache]; repeat split; intros; discriminate.
Qed.

(** C1 fails: a valid document is uploaded and nothing is imported.  The
    handler stops the script before the records are looked at; the session
    keeps its document, nothing is saved and nothing is shown. *)
Theorem import_valid_document_not_applied :
  validate_medication (mkmed "Aspirin" "08:00:00" None) = (true, "") /\
  import_data read_isoformat (Some (Some one_pill)) running_world
  = (Raise StopException, running_world) /\
  export_import_run read_isoformat (Some (Some one_pill)) running_world
  = (Raise StopException, running_world).
Proof. repeat split; reflexivity. Qed.

(** The rejections the handler does make: malformed JSON is reported and
    changes neither the document of the session nor the file. *)
Lemma import_malformed_rejected fromisoformat (w : world) :
  import_data fromisoformat (Some None) w
  = (Ok tt, mkworld (file w) (cache w) (session_data w)
              (screen w ++ [StError "Invalid JSON file format"])).
Proof. destruct w as [f c d scr]. reflexivity. Qed.

(** ** The division of two integers

    [a / b] rounds the quotient to 53 significant bits.  For two positive
    integers below [2^53] the rounded quotient stays between the same two
    consecutive integers as the exact one, so its ceiling is the exact
    ceiling. *)

(** Ceiling by its bounds *)
Lemma ceil_div_bounds a b c : 0 < b -> (c - 1) * b < a <= c * b -> - ((- a) / b) = c.
Proof.
  intros Hb [Hlo Hhi].
  assert ((- a) / b = - c) as ->; [|lia].
  symmetry. apply Z.div_unique with (r := c * b - a); lia.
Qed.

Lemma digits2_pos_bounds p :
  2 ^ (Zpos (digits2_pos p) - 1) <= Zpos p < 2 ^ Zpos (digits2_pos p).
Proof.
  induction p as [p IH|p IH|]; cbn [digits2_pos].
  - rewrite Pos2Z.inj_succ. replace (Z.succ (Z.pos (digits2_pos p)) - 1) with (Z.succ (Z.pos (digits2_pos p) - 1)) by lia.
    rewrite !Z.pow_succ_r by lia. lia.
  - rewrite Pos2Z.inj_succ. replace (Z.succ (Z.pos (digits2_pos p)) - 1) with (Z.succ (Z.pos (digits2_pos p) - 1)) by lia.
    rewrite !Z.pow_succ_r by lia. lia.
  - cbn. lia.
Qed.

Lemma pow2_lt_inv n m : 0 <= m -> 2 ^ n < 2 ^ m -> n < m.
Proof. intros Hm H. apply (Z.pow_lt_mono_r_iff 2); [lia|lia|exact H]. Qed.


Lemma Zdigits2_unique q n :
  0 < q -> 2 ^ (n - 1) <= q < 2 ^ n -> Zdigits2 q = n.
Proof.
  intros Hq [Hlo Hhi]. destruct q as [|p|p]; try lia. cbn [Zdigits2].
  pose proof (digits2_pos_bounds p) as [Hl Hh].
  assert (0 <= n). { destruct (Z_lt_le_dec n 0) as [Hn|Hn]; [|exact Hn]. rewrite (Z.pow_neg_r 2 n Hn) in Hhi. lia. }
  assert (n - 1 < Z.pos (digits2_pos p)) by (apply pow2_lt_inv; lia).
  assert (Z.pos (digits2_pos p) - 1 < n) by (apply pow2_lt_inv; lia).
  lia.
Qed.

Lemma shr_record_of_loc_m m l : shr_m (shr_record_of_loc m l) = m.
Proof. destruct l as [|[]]; reflexivity. Qed.

Lemma loc_of_shr_record_of_loc m l : loc_of_shr_record (shr_record_of_loc m l) = l.
Proof. destruct l as [|[]]; reflexivity. Qed.

(** The exponent of a 53-bit mantissa is kept, above the subnormal range. *)
Lemma shr_fexp_53 m e l :
  2 ^ 52 <= m < 2 ^ 53 -> -1074 <= e ->
  shr_fexp prec emax m e l = (shr_record_of_loc m l, e).
Proof.
  intros Hm He. unfold shr_fexp.
  rewrite (Zdigits2_unique m 53) by (change (53 - 1) with 52; lia).
  unfold fexp, emin, prec, emax.
  replace (Z.max (53 + e - 53) (3 - 1024 - 53) - e) with 0 by lia.
  reflexivity.
Qed.

Lemma shr_fexp_54 m e l :
  2 ^ 53 <= m < 2 ^ 54 -> -1074 <= e ->
  shr_fexp prec emax m e l = (shr_1 (shr_record_of_loc m l), e + 1).
Proof.
  intros Hm He. unfold shr_fexp.
  rewrite (Zdigits2_unique m 54) by (change (54 - 1) with 53; lia).
  unfold fexp, emin, prec, emax.
  replace (Z.max (54 + e - 53) (3 - 1024 - 53) - e) with 1 by lia.
  reflexivity.
Qed.

Lemma rounded_quotient_bounds a b k q r m c :
  0 < a -> 0 < b -> 0 <= k -> b < 2 * 2 ^ k ->
  a * 2 ^ k = b * q + r -> 0 <= r < b ->
  (m = q \/ (m = q + 1 /\ 0 < r)) ->
  (b < 2 * r -> m = q + 1) ->
  (c - 1) * b < a <= c * b ->
  (c - 1) * 2 ^ k < m <= c * 2 ^ k.
Proof.
  intros Ha Hb Hk Hkb Hdiv Hr Hm Hup [Hlo Hhi].
  assert (Hp : 0 < 2 ^ k) by (apply Z.pow_pos_nonneg; lia).
  set (P := 2 ^ k) in *.
  split.
  - assert (H1 : (c - 1) * P * b + P <= b * q + r) by nia.
    destruct (Z_lt_le_dec ((c - 1) * P) q) as [Hq|Hq]; [lia|].
    assert (Hq' : q = (c - 1) * P) by nia.
    assert (H : b < 2 * r) by nia.
    rewrite (Hup H). lia.
  - assert (H1 : b * q + r <= c * P * b) by nia.
    destruct Hm as [->|[-> Hr0]]; nia.
Qed.

Lemma new_location_spec b r :
  0 < b -> 0 <= r < b ->
  match new_location b r with
  | loc_Exact => r = 0
  | loc_Inexact Lt => 0 < r /\ 2 * r < b
  | loc_Inexact Eq => 0 < r /\ 2 * r = b
  | loc_Inexact Gt => b < 2 * r
  end.
Proof.
  intros Hb Hr. unfold new_location, new_location_even, new_location_odd.
  destruct (Z.even b) eqn:Heven; destruct (Z.eqb_spec r 0) as [|Hr0]; try assumption.
  - destruct (Z.compare_spec (2 * r) b); lia.
  - destruct (Z.compare_spec (2 * r + 1) b) as [Heq|Hlt|Hgt]; try lia.
    assert (b <> 2 * r); [|lia].
    intros ->. rewrite Z.even_mul in Heven. discriminate.
Qed.

Lemma shr_1_record q l :
  2 <= q ->
  shr_1 (shr_record_of_loc q l)
  = Build_shr_record (Z.div2 q) (Z.odd q)
      (match l with loc_Exact => false | _ => true end).
Proof.
  intros Hq. destruct q as [|[p|p|]|p]; try lia; destruct l as [|[]]; reflexivity.
Qed.

(** The last step of the rounding: a mantissa that reached [2^53] is
    halved. *)
Lemma final_pass m1 e :
  2 ^ 52 <= m1 <= 2 ^ 53 -> -1074 <= e <= 970 ->
  exists m e2,
    (let '(mrs, e2) := shr_fexp prec emax m1 e loc_Exact in
     match shr_m mrs with
     | Z0 => S754_zero false
     | Zpos m => if e2 <=? emax - prec then S754_finite false m e2 else S754_infinity false
     | Zneg _ => S754_nan
     end) = S754_finite false m e2 /\
    ((Zpos m = m1 /\ e2 = e) \/ (m1 = 2 ^ 53 /\ 2 * Zpos m = m1 /\ e2 = e + 1)).
Proof.
  intros Hm He. destruct (Z_lt_le_dec m1 (2 ^ 53)) as [Hlt|Hge].
  - rewrite shr_fexp_53 by lia. cbn [shr_record_of_loc shr_m].
    destruct m1 as [|p|p]; try lia.
    exists p, e. split; [|left; auto].
    unfold emax, prec. destruct (Z.leb_spec e (1024 - 53)); [reflexivity | lia].
  - assert (m1 = 2 ^ 53) as -> by lia.
    rewrite shr_fexp_54 by lia.
    exists (Z.to_pos (2 ^ 52)), (e + 1). split; [|right; repeat split; reflexivity].
    change (shr_m (shr_1 (shr_record_of_loc (2 ^ 53) loc_Exact))) with (Zpos (Z.to_pos (2 ^ 52))).
    cbv iota beta.
    unfold emax, prec. destruct (Z.leb_spec (e + 1) (1024 - 53)); [reflexivity | lia].
Qed.

Lemma round_nearest_even_range q l : q <= round_nearest_even q l <= q + 1.
Proof. destruct l as [|[]]; cbn [round_nearest_even]; try destruct (Z.even q); lia. Qed.

Lemma binary_round_aux_53 q e l :
  2 ^ 52 <= q < 2 ^ 53 -> -1074 <= e <= 970 ->
  exists m e2,
    binary_round_aux prec emax false q e l = S754_finite false m e2 /\
    ((Zpos m = round_nearest_even q l /\ e2 = e) \/
     (round_nearest_even q l = 2 ^ 53 /\ 2 * Zpos m = round_nearest_even q l /\
      e2 = e + 1)).
Proof.
  intros Hq He. unfold binary_round_aux.
  rewrite shr_fexp_53 by lia.
  rewrite shr_record_of_loc_m, loc_of_shr_record_of_loc.
  apply final_pass; [|lia].
  pose proof (round_nearest_even_range q l). lia.
Qed.

Lemma binary_round_aux_54 q e l :
  2 ^ 53 <= q < 2 ^ 54 -> -1074 <= e <= 969 ->
  exists m e2,
    binary_round_aux prec emax false q e l = S754_finite false m e2 /\
    let m1 := round_nearest_even (Z.div2 q)
                (loc_of_shr_record
                   (Build_shr_record (Z.div2 q) (Z.odd q)
                      (match l with loc_Exact => false | _ => true end))) in
    ((Zpos m = m1 /\ e2 = e + 1) \/
     (m1 = 2 ^ 53 /\ 2 * Zpos m = m1 /\ e2 = e + 1 + 1)).
Proof.
  intros Hq He. unfold binary_round_aux.
  rewrite shr_fexp_54 by lia.
  rewrite shr_1_record by lia.
  cbn [shr_m].
  apply final_pass; [|lia].
  match goal with |- context [round_nearest_even ?h ?l'] =>
    pose proof (round_nearest_even_range h l') end.
  pose proof (Z.div2_odd q) as Hodd. destruct (Z.odd q); cbn [Z.b2z] in Hodd; lia.
Qed.

Lemma settle_exponent a b c k m1 m e2 :
  0 < a < 2 ^ 53 -> 0 < b -> (c - 1) * b < a <= c * b -> 0 <= k ->
  (c - 1) * 2 ^ k < m1 <= c * 2 ^ k ->
  ((Zpos m = m1 /\ e2 = - k) \/ (m1 = 2 ^ 53 /\ 2 * Zpos m = m1 /\ e2 = - k + 1)) ->
  exists k', e2 = - k' /\ 0 <= k' /\ (c - 1) * 2 ^ k' < Zpos m <= c * 2 ^ k'.
Proof.
  intros Ha Hb Hc Hk Hm [[<- ->]|(H53 & H2 & ->)].
  - exists k. auto.
  - assert (Hc1 : 1 <= c) by nia.
    assert (Hca : c - 1 <= (c - 1) * b) by nia.
    assert (k <> 0). { intros ->. rewrite Z.pow_0_r in Hm. lia. }
    exists (k - 1). split; [lia|]. split; [lia|].
    assert (Hp : 2 ^ k = 2 * 2 ^ (k - 1)).
    { replace k with (Z.succ (k - 1)) at 1 by lia. apply Z.pow_succ_r. lia. }
    rewrite Hp in Hm. lia.
Qed.

(** The quotient of two positive integers below [2^53], rounded to a
    [float], lies within the same two consecutive integers as the exact
    quotient. *)
Lemma SFdiv_ints_ceiling (pa pb : positive) (c : Z) :
  Zpos pa < 2 ^ 53 -> Zpos pb < 2 ^ 53 ->
  (c - 1) * Zpos pb < Zpos pa <= c * Zpos pb ->
  exists m k,
    SFdiv prec emax (S754_finite false pa 0) (S754_finite false pb 0)
    = S754_finite false m (- k) /\
    0 <= k /\ (c - 1) * 2 ^ k < Zpos m <= c * 2 ^ k.
Proof.
  intros Ha Hb Hc.
  pose proof (digits2_pos_bounds pa) as [Ha1 Ha2].
  pose proof (digits2_pos_bounds pb) as [Hb1 Hb2].
  set (d1 := Zpos (digits2_pos pa)) in *. set (d2 := Zpos (digits2_pos pb)) in *.
  assert (Hd1 : 1 <= d1 <= 53).
  { split; [unfold d1; lia|]. assert (d1 - 1 < 53) by (apply pow2_lt_inv; lia). lia. }
  assert (Hd2 : 1 <= d2 <= 53).
  { split; [unfold d2; lia|]. assert (d2 - 1 < 53) by (apply pow2_lt_inv; lia). lia. }
  unfold SFdiv, SFdiv_core_binary. cbn [Zdigits2 xorb]. fold d1 d2. cbv zeta.
  replace (Z.min (fexp prec emax (d1 + 0 - (d2 + 0))) (0 - 0)) with (- (53 + d2 - d1))
    by (unfold fexp, emin, prec, emax; lia).
  replace (0 - 0 - - (53 + d2 - d1)) with (53 + d2 - d1) by lia.
  set (s := 53 + d2 - d1) in *.
  assert (Hs : 1 <= s <= 105) by (unfold s; lia).
  assert (Hshift : match s with
                   | 0 => Z.pos pa
                   | Z.pos _ => Z.shiftl (Z.pos pa) s
                   | Z.neg _ => 0
                   end = Zpos pa * 2 ^ s).
  { destruct s; try lia. apply Z.shiftl_mul_pow2. lia. }
  rewrite Hshift. clear Hshift.
  pose proof (Z_div_mod (Zpos pa * 2 ^ s) (Zpos pb) ltac:(lia)) as Hdiv.
  destruct (Z.div_eucl (Zpos pa * 2 ^ s) (Zpos pb)) as [q r]. destruct Hdiv as [Hdiv Hr].
  (* the powers of two at hand *)
  assert (HP1 : 2 ^ d1 = 2 * 2 ^ (d1 - 1)).
  { replace d1 with (Z.succ (d1 - 1)) at 1 by lia. apply Z.pow_succ_r. lia. }
  assert (HP2 : 2 ^ d2 = 2 * 2 ^ (d2 - 1)).
  { replace d2 with (Z.succ (d2 - 1)) at 1 by lia. apply Z.pow_succ_r. lia. }
  assert (HS : 2 ^ s * 2 ^ (d1 - 1) = 2 ^ 53 * 2 ^ (d2 - 1)).
  { rewrite <- !Z.pow_add_r by lia. f_equal. unfold s. lia. }
  assert (HS1 : 2 ^ s = 2 * 2 ^ (s - 1)).
  { replace s with (Z.succ (s - 1)) at 1 by lia. apply Z.pow_succ_r. lia. }
  assert (HP1' : 2 ^ (d1 - 1) <= 2 ^ 52) by (apply Z.pow_le_mono_r; lia).
  assert (0 < 2 ^ (d1 - 1)) by (apply Z.pow_pos_nonneg; lia).
  assert (0 < 2 ^ (d2 - 1)) by (apply Z.pow_pos_nonneg; lia).
  assert (0 < 2 ^ (s - 1)) by (apply Z.pow_pos_nonneg; lia).
  rewrite HP1 in Ha2. rewrite HP2 in Hb2.
  set (P1 := 2 ^ (d1 - 1)) in *. set (P2 := 2 ^ (d2 - 1)) in *.
  set (S := 2 ^ s) in *. set (S' := 2 ^ (s - 1)) in *.
  change (2 ^ 53) with 9007199254740992 in *. change (2 ^ 52) with 4503599627370496 in *.
  assert (Hb_S : Zpos pb < S) by nia.
  assert (Hq : 4503599627370496 <= q < 18014398509481984) by nia.
  pose proof (new_location_spec (Zpos pb) r ltac:(lia) Hr) as Hloc.
  destruct (Z_lt_le_dec q 9007199254740992) as [Hq53|Hq54].
  - (* a 53-bit quotient *)
    destruct (binary_round_aux_53 q (- s) (new_location (Zpos pb) r))
      as (m & e2 & -> & Hfin);
      [change (2 ^ 52) with 4503599627370496; change (2 ^ 53) with 9007199254740992; lia
      | lia |].
    exists m.
    destruct (settle_exponent (Zpos pa) (Zpos pb) c s
                (round_nearest_even q (new_location (Zpos pb) r)) m e2)
      as (k' & -> & Hk' & Hbounds); try assumption; try lia.
    + apply (rounded_quotient_bounds (Zpos pa) (Zpos pb) s q r); try assumption; try lia;
        destruct (new_location (Zpos pb) r) as [|[]]; cbn [round_nearest_even];
        try destruct (Z.even q); lia.
    + exists k'. auto.
  - (* a 54-bit quotient: one more bit is shifted out *)
    destruct (binary_round_aux_54 q (- s) (new_location (Zpos pb) r))
      as (m & e2 & -> & Hfin);
      [change (2 ^ 54) with 18014398509481984; change (2 ^ 53) with 9007199254740992; lia
      | lia |].
    cbv zeta in Hfin. exists m.
    pose proof (Z.div2_odd q) as Hodd.
    set (h := Z.div2 q) in *.
    set (rr := Zpos pa * S' - Zpos pb * h).
    assert (Hrr : 2 * rr = Z.b2z (Z.odd q) * Zpos pb + r) by (unfold rr; nia).
    match type of Hfin with context [round_nearest_even h ?l'] =>
      destruct (settle_exponent (Zpos pa) (Zpos pb) c (s - 1)
                  (round_nearest_even h l') m e2)
        as (k' & -> & Hk' & Hbounds); try assumption; try lia
    end.
    + apply (rounded_quotient_bounds (Zpos pa) (Zpos pb) (s - 1) h rr);
        try assumption; try lia; try (unfold rr; lia);
        destruct (Z.odd q); cbn [Z.b2z] in Hrr;
        destruct (new_location (Zpos pb) r) as [|[]];
        cbn [loc_of_shr_record round_nearest_even];
        try destruct (Z.even h); lia.
    + exists k'. auto.
Qed.

(** ** The refill alert *)

Lemma exact_ceil_div_bounds a b :
  0 < b -> (exact_ceil_div a b - 1) * b < a <= exact_ceil_div a b * b.
Proof.
  intros Hb. unfold exact_ceil_div.
  pose proof (Z.div_mod (- a) b ltac:(lia)) as Hdiv.
  pose proof (Z.mod_pos_bound (- a) b Hb) as Hmod.
  nia.
Qed.

(** Below [2^53], the number of days is the ceiling [c] of the exact
    quotient. *)
Lemma days_until_low_ceiling (s : stock_info) (c : Z) :
  0 < consumption_rate s < 2 ^ 53 ->
  0 < current_quantity s - alert_threshold s < 2 ^ 53 ->
  (c - 1) * consumption_rate s < current_quantity s - alert_threshold s
    <= c * consumption_rate s ->
  days_until_low s = Ok c.
Proof.
  intros Hr Ha Hc. unfold days_until_low, int_truediv.
  destruct (Z.eqb_spec (consumption_rate s) 0) as [|_]; [lia|].
  destruct (consumption_rate s) as [|pb|pb]; try lia.
  destruct (current_quantity s - alert_threshold s) as [|pa|pa]; try lia.
  cbn [exact_int].
  destruct (SFdiv_ints_ceiling pa pb c) as (m & k & -> & Hk & Hm); try lia.
  cbn [bind math_ceil cond_Zopp].
  destruct (Z.leb_spec 0 (- k)); f_equal.
  - assert (k = 0) as -> by lia. change (- 0) with 0. rewrite Z.pow_0_r in *. lia.
  - rewrite Z.opp_involutive. apply ceil_div_bounds; [apply Z.pow_pos_nonneg; lia | exact Hm].
Qed.

Lemma refill_due_iff s :
  refill_due s = true <-> 0 < consumption_rate s /\ alert_threshold s < current_quantity s.
Proof.
  unfold refill_due. rewrite andb_true_iff, !Z.gtb_ltb, !Z.ltb_lt. reflexivity.
Qed.

Lemma notification_start_ok now s start :
  notification_start now s = Ok start ->
  exists d, days_until_low s = Ok d /\ start = mkdatetime (date_of now + d) midnight.
Proof.
  unfold notification_start. intros H. apply bind_ok in H as (d & Hd & H).
  exists d. split; [assumption|].
  unfold timedelta_days in H. destruct (Z.abs d <=? 999999999); [|discriminate].
  cbn [bind] in H. unfold date_add in H.
  destruct ((1 <=? date_of now + d) && (date_of now + d <=? MAXORDINAL)); [|discriminate].
  cbn [bind] in H. congruence.
Qed.

Lemma notification_start_returns now s d :
  days_until_low s = Ok d -> 0 <= d -> 1 <= date_of now -> date_of now + d <= MAXORDINAL ->
  notification_start now s = Ok (mkdatetime (date_of now + d) midnight).
Proof.
  intros Hd Hd0 Hnow Hmax. unfold notification_start. rewrite Hd. cbn [bind].
  unfold timedelta_days, MAXORDINAL in *.
  destruct (Z.leb_spec (Z.abs d) 999999999); [|lia]. cbn [bind]. unfold date_add, MAXORDINAL.
  destruct (Z.leb_spec 1 (date_of now + d)); [|lia].
  destruct (Z.leb_spec (date_of now + d) 3652059); [|lia]. reflexivity.
Qed.

(** Two quotients as Python prints them: [1 / 3] is
    [0.333...] = 6004799503160661 * 2^-54, and 27021597764222984 / 3 is
    [9007199254740994.0]. *)
Example int_truediv_third :
  int_truediv 1 3 = Ok (S754_finite false 6004799503160661 (-54)).
Proof. vm_compute. reflexivity. Qed.

Example int_truediv_large :
  int_truediv 27021597764222984 3 = Ok (S754_finite false 4503599627370497 1).
Proof. vm_compute. reflexivity. Qed.

(** C4, as stated, fails.  [(2^53 + 1) / 2^53] is [1 + 2^-53], half way
    between two [float]s, and rounds to [1.0]: the refill alert is set one
    day from today, and the exact ceiling is 2.  For [large_stock] the exact
    quotient is 9007199254740994 + 2/3, which rounds to the [float]
    9007199254740994, an integer already, one less than the ceiling. *)
Lemma days_until_low_rounds_down :
  (refill_due fast_stock = true /\
   days_until_low fast_stock = Ok 1 /\
   exact_ceil_div (current_quantity fast_stock - alert_threshold fast_stock)
     (consumption_rate fast_stock) = 2 /\
   one_time (match medication_events noon_2030 ∅
                     (mkmed "Aspirin" "08:00:00" (Some fast_stock)) with
             | Ok out => out
             | Raise _ => []
             end)
   = [mkevent "Refill Aspirin" (mkdatetime (date_of noon_2030 + 1) midnight) None]) /\
  (refill_due large_stock = true /\
   days_until_low large_stock = Ok 9007199254740994 /\
   exact_ceil_div (current_quantity large_stock - alert_threshold large_stock)
     (consumption_rate large_stock) = 9007199254740995).
Proof. repeat split; vm_compute; reflexivity. Qed.

(** C4, amended: when the consumption rate and the quantity above the
    threshold are positive integers below [2^53], [days_until_low] is the
    ceiling of their exact quotient (30, 10 and 5 give 4); and the events of
    a medication hold one event that does not repeat, its "Refill" event on
    the day [days_until_low] days from today, exactly when the consumption
    rate is positive and the quantity is above the threshold, and none
    otherwise; they are produced when that day is in the calendar. *)
Theorem refill_alert_when_due :
  (forall s,
     0 < consumption_rate s < 2 ^ 53 ->
     0 < current_quantity s - alert_threshold s < 2 ^ 53 ->
     exists d,
       days_until_low s = Ok d /\
       (d - 1) * consumption_rate s
         < current_quantity s - alert_threshold s <= d * consumption_rate s) /\
  days_until_low (mkstock 30 5 10) = Ok 4 /\
  (forall now session_state med out,
     medication_events now session_state med = Ok out ->
     (forall s, stock med = Some s ->
        0 < consumption_rate s -> alert_threshold s < current_quantity s ->
        exists d,
          days_until_low s = Ok d /\
          one_time out
          = [mkevent ("Refill " +:+ name med) (mkdatetime (date_of now + d) midnight) None]) /\
     ((forall s, stock med = Some s ->
         consumption_rate s <= 0 \/ current_quantity s <= alert_threshold s) ->
      one_time out = [])) /\
  (forall now session_state med s t,
     stock med = Some s ->
     strptime_HMS (schedule med) = Some t ->
     1 <= date_of now < MAXORDINAL ->
     0 < consumption_rate s < 2 ^ 53 ->
     0 < current_quantity s - alert_threshold s < 2 ^ 53 ->
     date_of now
     + exact_ceil_div (current_quantity s - alert_threshold s) (consumption_rate s)
     <= MAXORDINAL ->
     exists out, medication_events now session_state med = Ok out).
Proof.
  split; [|split; [|split]].
  - intros s Hr Ha.
    exists (exact_ceil_div (current_quantity s - alert_threshold s) (consumption_rate s)).
    pose proof (exact_ceil_div_bounds (current_quantity s - alert_threshold s)
                  (consumption_rate s) ltac:(lia)) as Hc.
    split; [apply days_until_low_ceiling; assumption | exact Hc].
  - vm_compute. reflexivity.
  - intros now ss med out H.
    apply medication_events_ok in H as (start & _ & Hout). cbn zeta in Hout.
    destruct Hout as [[-> Hnone]|(s & rs & Hs & Hdue & Hrs & ->)]; split.
    + intros s Hs Hr Hq. specialize (Hnone s Hs).
      assert (refill_due s = true) by (apply refill_due_iff; lia). congruence.
    + reflexivity.
    + intros s' Hs' _ _. assert (s' = s) as -> by congruence.
      apply notification_start_ok in Hrs as (d & Hd & ->). exists d. auto.
    + intros Hnot. apply refill_due_iff in Hdue. destruct (Hnot s Hs); lia.
  - intros now ss med s t Hs Hparse Hday Hr Ha Hmax.
    apply (medication_events_returns now ss med t Hparse Hday).
    intros s' Hs' _. assert (s' = s) as -> by congruence.
    pose proof (exact_ceil_div_bounds (current_quantity s - alert_threshold s)
                  (consumption_rate s) ltac:(lia)) as Hc.
    eexists. apply notification_start_returns with
      (d := exact_ceil_div (current_quantity s - alert_threshold s) (consumption_rate s));
      try lia; first [apply days_until_low_ceiling; assumption | nia].
Qed.

(** * More properties *)

(** ** Saving and loading *)

(** X1: [save_data] of [app.py] never raises.  When the file cannot be
    opened it shows "Error saving data: ..." and leaves the file as it is;
    otherwise the file holds the document and nothing is shown.  The cache
    of [load_data] and the document of the session are never touched. *)
Theorem save_data_never_raises (data : json_value) (w : world) :
  exists w',
    save_data data w = (Ok tt, w') /\
    cache w' = cache w /\ session_data w' = session_data w /\
    ((file w = Denied /\ file w' = Denied /\
      screen w' = screen w ++ [StErrorExn "Error saving data: " PermissionError]) \/
     (file w <> Denied /\ file w' = Text (Some data) /\ screen w' = screen w)).
Proof.
  destruct w as [f c d scr]. destruct f as [| |p]; eexists;
    (split; [reflexivity|]); cbn [cache session_data file screen];
    repeat split; first [left; repeat split; reflexivity | right; repeat split; congruence].
Qed.

(** X2: what [load_data] returns right after [save_data data]: the cached
    document when there is one, whatever was saved; without a cached one,
    the document just saved, or [PermissionError] when the file cannot be
    opened (the save has then shown its error and the load raises). *)
Theorem load_after_save (data : json_value) (w : world) :
  fst ((save_data data ;;; load_data) w)
  = match cache w with
    | Some (cached, _) => Ok cached
    | None =>
        match file w with
        | Denied => Raise PermissionError
        | _ => Ok data
        end
    end.
Proof.
  destruct w as [f [[v shown]|] d scr]; destruct f as [| |p]; reflexivity.
Qed.

Lemma save_data_keeps_cache (data : json_value) (w : world) :
  exists w', save_data data w = (Ok tt, w') /\ cache w' = cache w.
Proof.
  destruct w as [f c d scr]. destruct f as [| |p]; eexists; split; reflexivity.
Qed.

Lemma saves_keep_cache (saved : list json_value) (w : world) :
  exists w', for_each_M save_data saved w = (Ok tt, w') /\ cache w' = cache w.
Proof.
  revert w. induction saved as [|d saved IH]; intros w; cbn [for_each_M].
  - exists w. split; reflexivity.
  - destruct (save_data_keeps_cache d w) as (w1 & Hs & Hc1).
    destruct (IH w1) as (w2 & Hrest & Hc2).
    exists w2. unfold bindM. rewrite Hs, Hrest. split; [reflexivity | congruence].
Qed.

(** X3: once [load_data] has returned a document, it returns that document
    again after any number of saves and whatever becomes of the file. *)
Theorem load_data_keeps_first_answer (w w1 : world) (v : json_value)
    (saved : list json_value) (f : file_state) :
  load_data w = (Ok v, w1) ->
  fst ((for_each_M save_data saved ;;; set_file f ;;; load_data) w1) = Ok v.
Proof.
  intros Hload.
  assert (Hc : exists shown, cache w1 = Some (v, shown)).
  { unfold load_data, cache_data in Hload. destruct (cache w) as [[v0 s0]|] eqn:Hcw.
    - injection Hload as <- <-. cbn [cache]. eauto.
    - destruct (load_data_body _) as [[v0|e] w0]; [|discriminate].
      injection Hload as <- <-. cbn [cache]. eauto. }
  destruct Hc as [shown Hc]. clear Hload.
  destruct (saves_keep_cache saved w1) as (w2 & Hs & Hc2).
  unfold bindM at 1. rewrite Hs.
  destruct w2 as [f2 c2 d2 s2]. cbn [cache] in Hc2. rewrite Hc in Hc2. subst c2.
  reflexivity.
Qed.

(** X4: in [pa.py], loading right after saving returns the document saved
    and leaves it in the file; when the file cannot be opened, [save_data]
    raises [PermissionError] and nothing changes. *)
Theorem pa_load_after_save (data : json_value) (w : world) :
  (Pa.save_data data ;;; Pa.load_data) w
  = match file w with
    | Denied => (Raise PermissionError, w)
    | _ => (Ok data, mkworld (Text (Some data)) (cache w) (session_data w) (screen w))
    end.
Proof. destruct w as [f c d scr]. destruct f as [| |p]; reflexivity. Qed.

(** ** Uploads that are refused *)


(** ** The "Save Changes" buttons *)

Lemma report_invalid_spec {A} (validate : A -> bool * string) (records : list A)
    (has_errors : bool) (w : world) :
  report_invalid validate records has_errors w
  = (Ok (has_errors || negb (forallb (fun r => fst (validate r)) records)),
     mkworld (file w) (cache w) (session_data w)
       (screen w ++ map StError (refusals validate records))).
Proof.
  revert has_errors w. induction records as [|r records IH]; intros b w.
  - destruct w as [f c d scr]. cbn. rewrite orb_false_r, app_nil_r. reflexivity.
  - cbn [report_invalid forallb]. unfold refusals. cbn [List.filter].
    destruct (validate r) as [is_valid error] eqn:Hv. cbn [fst snd].
    destruct is_valid; cbn [negb andb].
    + apply IH.
    + unfold bindM, st_error, show. rewrite IH. cbn [file cache session_data screen map].
      rewrite orb_true_r, <- app_assoc. cbn [fst snd]. rewrite Hv. destruct b; reflexivity.
Qed.

Lemma refusals_nil {A} (validate : A -> bool * string) (records : list A) :
  refusals validate records = [] <-> forallb (fun r => fst (validate r)) records = true.
Proof.
  unfold refusals. induction records as [|r records IH]; cbn; [tauto|].
  destruct (fst (validate r)); cbn; [exact IH|]. split; discriminate.
Qed.

(** What a "Save Changes" handler does once the records are looked up. *)
Lemma save_changes_spec {A} (validate : A -> bool * string) (records : list A)
    (data : json_value) (w : world) :
  session_data w = Some data ->
  (has_errors <~ report_invalid validate records false ;;
   if negb has_errors
   then data <~ get_session_data ;; save_data data ;;; st_toast "Changes saved successfully"
   else ret tt) w
  = match refusals validate records with
    | [] =>
        match file w with
        | Denied =>
            (Ok tt, mkworld Denied (cache w) (session_data w)
                      (screen w ++ [StErrorExn "Error saving data: " PermissionError;
                                    StToast "Changes saved successfully"]))
        | _ =>
            (Ok tt, mkworld (Text (Some data)) (cache w) (session_data w)
                      (screen w ++ [StToast "Changes saved successfully"]))
        end
    | errors =>
        (Ok tt, mkworld (file w) (cache w) (session_data w)
                  (screen w ++ map StError errors))
    end.
Proof.
  intros Hd. unfold bindM at 1. rewrite report_invalid_spec. cbn [orb].
  destruct (refusals validate records) as [|e errors] eqn:Hr.
  - apply refusals_nil in Hr. rewrite Hr. cbn [negb map].
    destruct w as [f c d scr]. cbn [session_data] in Hd. subst d.
    rewrite app_nil_r.
    destruct f as [| |p];
      cbv [bindM get_session_data save_data try_except json_dump_file set_file
           st_toast show session_data file cache screen isa_Exception];
      rewrite <- ?app_assoc; reflexivity.
  - assert (forallb (fun r => fst (validate r)) records = false) as ->.
    { destruct (forallb _ records) eqn:H; [|reflexivity].
      apply refusals_nil in H. congruence. }
    reflexivity.
Qed.

Lemma get_session_data_ok (w : world) (data : json_value) :
  session_data w = Some data -> get_session_data w = (Ok data, w).
Proof. intros H. unfold get_session_data. rewrite H. reflexivity. Qed.

Lemma medications_save_changes_returns (w : world) (data : json_value)
    (meds : list medication) :
  session_data w = Some data ->
  get_medications data = Ok meds ->
  medications_save_changes w
  = match refusals validate_medication meds with
    | [] =>
        match file w with
        | Denied =>
            (Ok tt, mkworld Denied (cache w) (session_data w)
                      (screen w ++ [StErrorExn "Error saving data: " PermissionError;
                                    StToast "Changes saved successfully"]))
        | _ =>
            (Ok tt, mkworld (Text (Some data)) (cache w) (session_data w)
                      (screen w ++ [StToast "Changes saved successfully"]))
        end
    | errors =>
        (Ok tt, mkworld (file w) (cache w) (session_data w)
                  (screen w ++ map StError errors))
    end.
Proof.
  intros Hd Hm. unfold medications_save_changes.
  unfold bindM at 1. rewrite (get_session_data_ok w data Hd). cbv beta iota.
  unfold bindM at 1, lift. rewrite Hm. cbv beta iota.
  apply (save_changes_spec validate_medication meds data w Hd).
Qed.

(** X6: "Save Changes" on the Medications page shows the message of every
    medication the validator refuses, in their order; it writes the file
    and shows "Changes saved successfully" only when there is none. *)
Theorem medications_save_changes_gate (w : world) (data : json_value)
    (meds : list medication) :
  session_data w = Some data ->
  get_medications data = Ok meds ->
  file w <> Denied ->
  medications_save_changes w
  = match refusals validate_medication meds with
    | [] =>
        (Ok tt, mkworld (Text (Some data)) (cache w) (session_data w)
                  (screen w ++ [StToast "Changes saved successfully"]))
    | errors =>
        (Ok tt, mkworld (file w) (cache w) (session_data w)
                  (screen w ++ map StError errors))
    end.
Proof.
  intros Hd Hm Hf. rewrite (medications_save_changes_returns w data meds Hd Hm).
  destruct (refusals validate_medication meds); [|reflexivity].
  destruct (file w); [reflexivity | congruence | reflexivity].
Qed.

(** X7: "Save Changes" does not look at whether the save worked: with
    valid medications and a file that cannot be opened, the error of the
    save is followed by "Changes saved successfully", and the file is as
    before. *)
Theorem medications_save_changes_toast_after_failure (w : world) (data : json_value)
    (meds : list medication) :
  session_data w = Some data ->
  get_medications data = Ok meds ->
  refusals validate_medication meds = [] ->
  file w = Denied ->
  medications_save_changes w
  = (Ok tt, mkworld Denied (cache w) (session_data w)
              (screen w ++ [StErrorExn "Error saving data: " PermissionError;
                            StToast "Changes saved successfully"])).
Proof.
  intros Hd Hm Hr Hf.
  rewrite (medications_save_changes_returns w data meds Hd Hm), Hr, Hf. reflexivity.
Qed.

(** X8: the validation of "Save Changes" does not keep a refused document
    out of the file: the script ends by saving the document of the session
    (line 274), so after the handler and the end of the script a file that
    can be written holds the document, valid or not. *)
Theorem refused_document_is_saved_anyway (w : world) (data : json_value)
    (meds : list medication) :
  session_data w = Some data ->
  get_medications data = Ok meds ->
  file w <> Denied ->
  let after := (medications_save_changes ;;; script_end) w in
  fst after = Ok tt /\ file (snd after) = Text (Some data).
Proof.
  intros Hd Hm Hf. cbv zeta. unfold bindM.
  rewrite (medications_save_changes_returns w data meds Hd Hm).
  destruct (refusals validate_medication meds) as [|e errors].
  - destruct w as [f c d scr]. cbn [session_data file] in *. subst d.
    destruct f as [| |p]; [split; reflexivity | congruence | split; reflexivity].
  - destruct w as [f c d scr]. cbn [session_data file] in *. subst d.
    destruct f as [| |p]; [split; reflexivity | congruence | split; reflexivity].
Qed.



(** ** The "Add New Medication" button *)

(** X10: "Add New Medication" appends a record without a name, which the
    validator refuses; the end of the script (line 274) saves the document
    with that record all the same: after the handler and the end of the
    script the file holds the medications followed by the nameless one. *)
Theorem new_medication_is_saved_unnamed (w : world) (meds : list medication)
    (appts : option (list appointment)) :
  session_data w = Some (JObject (Some meds) appts) ->
  file w <> Denied ->
  let added := JObject (Some (meds ++ [new_med])) appts in
  (add_new_medication ;;; script_end) w
  = (Ok tt, mkworld (Text (Some added)) (cache w) (Some added) (screen w)) /\
  In "Medication name cannot be empty" (refusals validate_medication (meds ++ [new_med])).
Proof.
  intros Hd Hf. cbv zeta. split.
  - destruct w as [f c d scr]. cbn [session_data file] in Hd, Hf. subst d.
    destruct f as [| |p]; [reflexivity | congruence | reflexivity].
  - unfold refusals. rewrite List.filter_app, map_app. apply in_or_app. right.
    left. reflexivity.
Qed.

(** ** Documents of another shape *)

(** X11: [load_data] returns whatever well-formed JSON the file holds,
    without looking at its shape; when that value is not an object with a
    'medications' key, the calendar, the Home page and the two buttons of
    the Medications page all raise ([TypeError] for a value that is not an
    object, [KeyError] for a missing key), and the buttons change nothing. *)
Theorem pages_need_medications (v : json_value) :
  has_medications v = false ->
  let e := match v with JOther => TypeError | _ => KeyError "medications" end in
  (forall w, cache w = None -> file w = Text (Some v) -> fst (load_data w) = Ok v) /\
  (forall fromisoformat now session_state selected_meds,
     generate_calendar fromisoformat now session_state v selected_meds = Raise e) /\
  (forall fromisoformat now, Home.upcoming_events fromisoformat now v = Raise e) /\
  (forall w, session_data w = Some v ->
     medications_save_changes w = (Raise e, w) /\
     add_new_medication w = (Raise e, w)).
Proof.
  intros Hv. cbv zeta. repeat split.
  - intros [f c d scr]. cbn [cache file]. intros -> ->. reflexivity.
  - destruct v as [|[meds|] appts]; try discriminate; reflexivity.
  - destruct v as [|[meds|] appts]; try discriminate; reflexivity.
  - destruct w as [f c d scr]. cbn [session_data] in *. subst.
    destruct v as [|[meds|] appts]; try discriminate; reflexivity.
  - destruct w as [f c d scr]. cbn [session_data] in *. subst.
    destruct v as [|[meds|] appts]; try discriminate; reflexivity.
Qed.

(** ** The order of the Home page *)
Ltac split_compares :=
  repeat match goal with
         | |- context [Z.compare ?x ?y] =>
             destruct (Z.compare_spec x y); cbn [lex CompOpp];
             try discriminate; try lia; subst
         end.

Lemma time_compare_eq a b : time_compare a b = Eq -> a = b.
Proof.
  destruct a as [h m s u], b as [h' m' s' u']. unfold time_compare. cbn [hour minute second microsecond].
  split_compares. reflexivity.
Qed.

Lemma time_compare_lt_trans a b c :
  time_compare a b = Lt -> time_compare b c = Lt -> time_compare a c = Lt.
Proof.
  destruct a as [h m s u], b as [h' m' s' u'], c as [h'' m'' s'' u''].
  unfold time_compare. cbn [hour minute second microsecond].
  split_compares; intros; try discriminate; try reflexivity; try lia.
Qed.

Lemma datetime_compare_eq a b : datetime_compare a b = Eq -> a = b.
Proof.
  destruct a as [d t], b as [d' t']. unfold datetime_compare. cbn [date_of time_of].
  destruct (Z.compare_spec d d') as [Hd| |]; cbn [lex]; try discriminate.
  intros Ht. apply time_compare_eq in Ht. congruence.
Qed.

Lemma datetime_compare_antisym a b :
  datetime_compare b a = CompOpp (datetime_compare a b).
Proof.
  unfold datetime_compare. rewrite lex_opp, <- Z.compare_antisym, <- time_compare_antisym.
  reflexivity.
Qed.

Lemma datetime_compare_lt_trans a b c :
  datetime_compare a b = Lt -> datetime_compare b c = Lt -> datetime_compare a c = Lt.
Proof.
  destruct a as [d t], b as [d' t'], c as [d'' t'']. unfold datetime_compare.
  cbn [date_of time_of].
  destruct (Z.compare_spec d d'), (Z.compare_spec d' d''), (Z.compare_spec d d'');
    cbn [lex]; try discriminate; try lia; try reflexivity.
  apply time_compare_lt_trans.
Qed.

Lemma datetime_ltb_irrefl a : datetime_ltb a a = false.
Proof.
  unfold datetime_ltb, datetime_compare. rewrite Z.compare_refl, time_compare_refl. reflexivity.
Qed.

Lemma datetime_ltb_asym a b : datetime_ltb a b = true -> datetime_ltb b a = false.
Proof.
  unfold datetime_ltb. rewrite (datetime_compare_antisym a b).
  destruct (datetime_compare a b); [discriminate | reflexivity | discriminate].
Qed.

Lemma datetime_ltb_trans a b c :
  datetime_ltb a b = true -> datetime_ltb b c = true -> datetime_ltb a c = true.
Proof.
  unfold datetime_ltb. intros Hab Hbc.
  rewrite (datetime_compare_lt_trans a b c); [reflexivity | |].
  - destruct (datetime_compare a b); [discriminate | reflexivity | discriminate].
  - destruct (datetime_compare b c); [discriminate | reflexivity | discriminate].
Qed.

Lemma sort_snoc l x : Home.sort (l ++ [x]) = Home.insert x (Home.sort l).
Proof. unfold Home.sort. rewrite fold_left_app. reflexivity. Qed.

Lemma insert_permutation x l : Permutation (Home.insert x l) (x :: l).
Proof.
  induction l as [|y l IH]; cbn [Home.insert]; [reflexivity|].
  destruct (datetime_ltb _ _); [reflexivity|].
  rewrite IH. apply perm_swap.
Qed.

Lemma sort_permutation l : Permutation (Home.sort l) l.
Proof.
  induction l as [|x l IH] using rev_ind; [reflexivity|].
  rewrite sort_snoc, insert_permutation, IH. apply Permutation_cons_append.
Qed.

Lemma insert_sorted x l :
  StronglySorted not_later l -> StronglySorted not_later (Home.insert x l).
Proof.
  induction 1 as [|y l Hsorted IH Hy]; cbn [Home.insert].
  - repeat constructor.
  - destruct (datetime_ltb (Home.start_time x) (Home.start_time y)) eqn:Hxy.
    + constructor; [constructor; assumption|].
      constructor; [exact (datetime_ltb_asym _ _ Hxy)|].
      eapply Forall_impl; [exact Hy|]. intros z Hz. unfold not_later in *.
      destruct (datetime_ltb (Home.start_time z) (Home.start_time x)) eqn:Hzx;
        [|reflexivity].
      rewrite (datetime_ltb_trans _ _ _ Hzx Hxy) in Hz. discriminate.
    + constructor; [exact IH|].
      apply (Permutation_Forall (x := x :: l)); [symmetry; apply insert_permutation|].
      constructor; assumption.
Qed.

Lemma sort_sorted l : StronglySorted not_later (Home.sort l).
Proof.
  induction l as [|x l IH] using rev_ind; [constructor|].
  rewrite sort_snoc. apply insert_sorted. exact IH.
Qed.

Lemma filter_none {A} (f : A -> bool) (l : list A) :
  (forall x, In x l -> f x = false) -> List.filter f l = [].
Proof.
  induction l as [|x l IH]; intros H; cbn [List.filter]; [reflexivity|].
  rewrite (H x (or_introl eq_refl)). apply IH. intros y Hy. apply H. right. exact Hy.
Qed.

(** Inserting an entry into a sorted list puts it after the entries that
    start at the same time. *)
Lemma starting_at_insert t x l :
  StronglySorted not_later l ->
  starting_at t (Home.insert x l) = starting_at t l ++ starting_at t [x].
Proof.
  induction 1 as [|y l Hsorted IH Hy]; cbn [Home.insert]; [reflexivity|].
  destruct (datetime_ltb (Home.start_time x) (Home.start_time y)) eqn:Hxy.
  - change (x :: y :: l) with ([x] ++ y :: l). unfold starting_at at 1.
    rewrite List.filter_app. fold (starting_at t [x]) (starting_at t (y :: l)).
    destruct (starting_at t [x]) as [|x' rest] eqn:Hx; [rewrite app_nil_r; reflexivity|].
    assert (Hxt : Home.start_time x = t).
    { unfold starting_at in Hx. cbn [List.filter] in Hx.
      destruct (datetime_compare (Home.start_time x) t) eqn:Hc; try discriminate.
      apply datetime_compare_eq. exact Hc. }
    assert (Hnone : starting_at t (y :: l) = []).
    { apply filter_none. intros z Hz.
      destruct (datetime_compare (Home.start_time z) t) eqn:Hc; try reflexivity.
      exfalso. apply datetime_compare_eq in Hc. rewrite <- Hxt in Hc.
      destruct Hz as [<-|Hz].
      - rewrite Hc, datetime_ltb_irrefl in Hxy. discriminate.
      - rewrite List.Forall_forall in Hy. specialize (Hy z Hz). unfold not_later in Hy.
        rewrite Hc, Hxy in Hy. discriminate. }
    rewrite Hnone. rewrite app_nil_r. reflexivity.
  - unfold starting_at in *. cbn [List.filter].
    destruct (datetime_compare (Home.start_time y) t); rewrite IH; reflexivity.
Qed.

Lemma sort_keeps_ties t l : starting_at t (Home.sort l) = starting_at t l.
Proof.
  induction l as [|x l IH] using rev_ind; [reflexivity|].
  rewrite sort_snoc, starting_at_insert by apply sort_sorted.
  rewrite IH. unfold starting_at. rewrite List.filter_app. reflexivity.
Qed.

(** X12: the sort of the Home page returns its entries rearranged, none
    starting before an earlier one in the list, and with the entries that
    start at the same time in the order they had. *)
Theorem home_sort_is_stable (l : list Home.upcoming) :
  Permutation (Home.sort l) l /\
  StronglySorted not_later (Home.sort l) /\
  (forall t, starting_at t (Home.sort l) = starting_at t l).
Proof.
  split; [apply sort_permutation|]. split; [apply sort_sorted|].
  intros t. apply sort_keeps_ties.
Qed.

(** X13: the entry the Home page writes as "Next event" is one that no
    entry starts before, the first of those in the order of the document
    (medications, then appointments); it is looked for among all the
    entries, the appointments of the past included; and nothing is written
    exactly when there is no entry. *)
Theorem next_event_is_earliest (fromisoformat : string -> option datetime)
    (now : datetime) (data : json_value) (shown : option Home.upcoming) :
  Home.next_event fromisoformat now data = Ok shown ->
  exists entries,
    Home.upcoming_events fromisoformat now data = Ok entries /\
    match shown with
    | None => entries = []
    | Some e =>
        Forall (not_later e) entries /\
        head (starting_at (Home.start_time e) entries) = Some e
    end.
Proof.
  unfold Home.next_event. intros H. apply bind_ok in H as (entries & Hentries & [= <-]).
  exists entries. split; [exact Hentries|].
  pose proof (sort_permutation entries) as Hperm.
  pose proof (sort_sorted entries) as Hsorted.
  pose proof (sort_keeps_ties) as Hties.
  destruct (Home.sort entries) as [|e rest] eqn:Hs; cbn [head].
  - apply Permutation_nil. exact Hperm.
  - split.
    + apply (Permutation_Forall Hperm). inversion Hsorted as [|? ? _ Hall]; subst.
      constructor; [apply datetime_ltb_irrefl | exact Hall].
    + specialize (Hties (Home.start_time e) entries). rewrite Hs in Hties.
      rewrite <- Hties. unfold starting_at. cbn [List.filter].
      unfold datetime_compare. rewrite Z.compare_refl, time_compare_refl. reflexivity.
Qed.

(** ** The calendar and the Home page *)

Lemma for_each_mapped {A B C} (g : A -> result (list C)) (h : A -> result (list B))
    (phi : B -> C) (l : list A) :
  (forall x, g x = (out <- h x ;; Ok (map phi out))) ->
  for_each g l = (out <- for_each h l ;; Ok (map phi out)).
Proof.
  intros Hg. induction l as [|x l IH]; [reflexivity|].
  cbn [for_each]. rewrite Hg, IH.
  destruct (h x) as [o|e]; [|reflexivity]. cbn [bind].
  destruct (for_each h l) as [os|e]; [|reflexivity]. cbn [bind].
  rewrite map_app. reflexivity.
Qed.

Lemma medication_entries_of_events now session_state med :
  Home.medication_entries now med
  = (out <- medication_events now session_state med ;; Ok (map as_upcoming out)).
Proof.
  unfold Home.medication_entries, medication_events.
  destruct (get_next_reminder now med) as [start|e]; [|reflexivity]. cbn [bind].
  destruct (stock med) as [s|]; [|reflexivity].
  destruct (refill_due s); [|reflexivity].
  destruct (notification_start now s) as [rs|e]; reflexivity.
Qed.

Lemma appointment_entries_of_events fromisoformat appt :
  Home.appointment_entries fromisoformat appt
  = (out <- appointment_events fromisoformat appt ;; Ok (map as_upcoming out)).
Proof.
  unfold Home.appointment_entries, appointment_events.
  destruct (fromisoformat_or_raise fromisoformat (date_time appt)); reflexivity.
Qed.

Lemma filter_all_selected (meds : list medication) :
  List.filter (is_selected []) meds = meds.
Proof. induction meds as [|med meds IH]; cbn; [|rewrite IH]; reflexivity. Qed.

(** X14: the Home page lists what a calendar with no selection holds: its
    entries are the events of [generate_calendar], in the same order, with
    the same titles and starts, and it fails exactly when the calendar
    does, with the same exception, whatever the configured frequencies. *)
Theorem home_lists_the_calendar (fromisoformat : string -> option datetime)
    (now : datetime) (session_state : gmap string string) (data : json_value) :
  Home.upcoming_events fromisoformat now data
  = (evs <- generate_calendar fromisoformat now session_state data [] ;;
     Ok (map as_upcoming evs)).
Proof.
  unfold Home.upcoming_events, generate_calendar.
  destruct (get_medications data) as [meds|e]; [|reflexivity]. cbn [bind].
  rewrite filter_all_selected.
  rewrite (for_each_mapped _ _ as_upcoming meds
             (medication_entries_of_events now session_state)).
  destruct (for_each (medication_events now session_state) meds) as [mevs|e];
    [|reflexivity]. cbn [bind].
  destruct (get_appointments data) as [appts|e]; [|reflexivity]. cbn [bind].
  rewrite (for_each_mapped _ _ as_upcoming appts
             (appointment_entries_of_events fromisoformat)).
  destruct (for_each (appointment_events fromisoformat) appts) as [aevs|e];
    [|reflexivity]. cbn [bind].
  rewrite map_app. reflexivity.
Qed.

Lemma is_selected_by_name (meds : list medication) (med : medication) :
  In med meds -> is_selected (map name meds) med = true.
Proof.
  intros Hin. unfold is_selected.
  destruct (map name meds) as [|n names] eqn:Hnames; [reflexivity|].
  rewrite <- Hnames. apply existsb_exists. exists (name med). split.
  - apply in_map. exact Hin.
  - apply String.eqb_refl.
Qed.

Lemma filter_all (A : Type) (f : A -> bool) (l : list A) :
  (forall x, In x l -> f x = true) -> List.filter f l = l.
Proof.
  induction l as [|x l IH]; intros H; cbn [List.filter]; [reflexivity|].
  rewrite (H x (or_introl eq_refl)). f_equal. apply IH. intros y Hy. apply H. right. exact Hy.
Qed.

(** X15: a selection acts as if the medications that are not selected
    were not in the document, so that a record left out cannot make the
    generation fail; and selecting every name the page offers gives the
    calendar of no selection. *)
Theorem selection_is_removal (fromisoformat : string -> option datetime)
    (now : datetime) (session_state : gmap string string)
    (meds : list medication) (appts : option (list appointment))
    (selected_meds : list string) :
  generate_calendar fromisoformat now session_state (JObject (Some meds) appts)
    selected_meds
  = generate_calendar fromisoformat now session_state
      (JObject (Some (List.filter (is_selected selected_meds) meds)) appts) [] /\
  generate_calendar fromisoformat now session_state (JObject (Some meds) appts)
    (map name meds)
  = generate_calendar fromisoformat now session_state (JObject (Some meds) appts) [].
Proof.
  unfold generate_calendar. cbn [get_medications bind]. split.
  - rewrite filter_all_selected. reflexivity.
  - rewrite filter_all_selected, (filter_all _ _ meds (is_selected_by_name meds)).
    reflexivity.
Qed.

Lemma medication_events_titles now session_state med out :
  medication_events now session_state med = Ok out ->
  map summary out = medication_titles med.
Proof.
  intros H. apply medication_events_ok in H as (start & _ & Hout). cbn zeta in Hout.
  unfold medication_titles, refill_is_due.
  destruct Hout as [[-> Hnone]|(s & rs & Hs & Hdue & _ & ->)].
  - destruct (stock med) as [s|]; [rewrite (Hnone s eq_refl)|]; reflexivity.
  - rewrite Hs, Hdue. reflexivity.
Qed.

Lemma medication_loop_titles now session_state meds out :
  for_each (medication_events now session_state) meds = Ok out ->
  map summary out = flat_map medication_titles meds.
Proof.
  revert out. induction meds as [|med meds IH]; intros out H; cbn [for_each] in H.
  - injection H as <-. reflexivity.
  - apply bind_ok in H as (o & Hmed & H). apply bind_ok in H as (os & Hrest & [= <-]).
    rewrite map_app, (medication_events_titles _ _ _ _ Hmed), (IH _ Hrest). reflexivity.
Qed.

Lemma appointment_loop_titles fromisoformat appts out :
  for_each (appointment_events fromisoformat) appts = Ok out ->
  map summary out = map appointment_summary appts.
Proof.
  revert out. induction appts as [|appt appts IH]; intros out H; cbn [for_each] in H.
  - injection H as <-. reflexivity.
  - apply bind_ok in H as (o & Happt & H). apply bind_ok in H as (os & Hrest & [= <-]).
    apply appointment_events_ok in Happt as (start & _ & ->).
    cbn [app map summary]. f_equal. apply IH. exact Hrest.
Qed.

(** X16: the titles of a generated calendar, in order, are read off the
    document alone: for each selected medication "Take <name>", followed by
    "Refill <name>" when its stock has a positive rate and a quantity above
    the threshold, then the title of each appointment.  Neither the clock
    nor the configured frequencies change them. *)
Theorem calendar_titles (fromisoformat : string -> option datetime) (now : datetime)
    (session_state : gmap string string) (meds : list medication)
    (appts : list appointment) (selected_meds : list string) (evs : list event) :
  generate_calendar fromisoformat now session_state (document meds appts) selected_meds
  = Ok evs ->
  map summary evs
  = flat_map medication_titles (List.filter (is_selected selected_meds) meds)
    ++ map appointment_summary appts.
Proof.
  intros H. apply generate_calendar_ok in H
    as (meds' & appts' & mevs & aevs & [= <-] & Hme & [= <-] & Hae & ->).
  rewrite map_app, (medication_loop_titles _ _ _ _ Hme), (appointment_loop_titles _ _ _ Hae).
  reflexivity.
Qed.

(** ** Events of the medications and the clock *)

Lemma get_next_reminder_result now med t r :
  strptime_HMS (schedule med) = Some t ->
  get_next_reminder now med = Ok r ->
  time_of r = t /\ datetime_leb now r = true.
Proof.
  intros Hparse. unfold get_next_reminder. rewrite Hparse.
  change (timedelta_days 1) with (Ok 1). cbn [bind].
  rewrite combine_ltb_today. unfold combine.
  destruct (time_ltb t (time_of now)) eqn:Hlt.
  - intros Hr. apply datetime_add_ok in Hr as [Hd Ht]. cbn [date_of time_of] in Hd, Ht.
    split; [exact Ht|].
    unfold datetime_leb, datetime_compare. rewrite Hd.
    replace (date_of now ?= date_of now + 1) with Lt; [reflexivity|].
    symmetry. apply Z.compare_lt_iff. lia.
  - intros [= <-]. split; [reflexivity|].
    unfold datetime_leb, datetime_compare. cbn [date_of time_of].
    rewrite Z.compare_refl. cbn [lex].
    unfold time_ltb in Hlt. rewrite time_compare_antisym.
    destruct (time_compare t (time_of now)); [reflexivity | discriminate | reflexivity].
Qed.

(** X17: no event of a medication starts before the clock reading: the
    "Take" event starts at [now] or later and, when the consumption rate
    and the quantity above the threshold are below [2^53], the "Refill"
    event starts on a later day. *)
Theorem medication_events_not_before_now (now : datetime)
    (session_state : gmap string string) (med : medication) (out : list event) :
  medication_events now session_state med = Ok out ->
  (forall s, stock med = Some s -> refill_due s = true ->
     consumption_rate s < 2 ^ 53 /\
     current_quantity s - alert_threshold s < 2 ^ 53) ->
  Forall (fun ev => datetime_leb now (dtstart ev) = true) out /\
  Forall (fun ev => date_of now < date_of (dtstart ev)) (one_time out).
Proof.
  intros H Hbound.
  assert (Htake : forall start, get_next_reminder now med = Ok start ->
                                datetime_leb now start = true).
  { intros start Hstart. unfold get_next_reminder in Hstart.
    destruct (strptime_HMS (schedule med)) as [t|] eqn:Hparse; [|discriminate].
    apply (get_next_reminder_result now med t start Hparse).
    unfold get_next_reminder. rewrite Hparse. exact Hstart. }
  apply medication_events_ok in H as (start & Hstart & Hout). cbn zeta in Hout.
  destruct Hout as [[-> _]|(s & rs & Hs & Hdue & Hrs & ->)].
  - split; [|constructor]. constructor; [|constructor]. apply Htake. exact Hstart.
  - apply notification_start_ok in Hrs as (d & Hd & ->).
    destruct (Hbound s Hs Hdue) as [Hr Hq].
    apply refill_due_iff in Hdue as [Hr0 Hq0].
    pose proof (exact_ceil_div_bounds (current_quantity s - alert_threshold s)
                  (consumption_rate s) Hr0) as Hc.
    rewrite (days_until_low_ceiling s _ ltac:(lia) ltac:(lia) Hc) in Hd.
    injection Hd as <-.
    set (c := exact_ceil_div (current_quantity s - alert_threshold s) (consumption_rate s))
      in *.
    assert (1 <= c) by nia.
    split.
    + constructor; [apply Htake; exact Hstart|]. constructor; [|constructor].
      unfold datetime_leb, datetime_compare. cbn [dtstart date_of].
      replace (date_of now ?= date_of now + c) with Lt; [reflexivity|].
      symmetry. apply Z.compare_lt_iff. lia.
    + unfold one_time. cbn. constructor; [|constructor]. cbn [dtstart date_of]. lia.
Qed.

(** ** Schedules written by the Medications page *)

Lemma in_upto (n : Z) (k : nat) : 0 <= n < Z.of_nat k -> In n (upto k).
Proof.
  intros Hn. unfold upto. apply in_map_iff. exists (Z.to_nat n). split; [lia|].
  apply in_seq. lia.
Qed.

Lemma strptime_strftime_checked :
  forallb
    (fun h =>
       forallb
         (fun m =>
            forallb
              (fun s =>
                 match strptime_HMS (strftime_HMS (mktime h m s 0)) with
                 | Some t =>
                     (hour t =? h) && (minute t =? m) && (second t =? s)
                     && (microsecond t =? 0)
                 | None => false
                 end)
              (upto 60))
         (upto 60))
    (upto 24) = true.
Proof. vm_compute. reflexivity. Qed.

Lemma strptime_strftime (t : time) :
  time_in_range t ->
  strptime_HMS (strftime_HMS t) = Some (mktime (hour t) (minute t) (second t) 0).
Proof.
  intros (Hh & Hm & Hs). destruct t as [h m s u]. cbn [hour minute second] in *.
  change (strftime_HMS (mktime h m s u)) with (strftime_HMS (mktime h m s 0)).
  pose proof strptime_strftime_checked as Hall.
  rewrite forallb_forall in Hall. specialize (Hall h (in_upto h 24 ltac:(lia))).
  rewrite forallb_forall in Hall. specialize (Hall m (in_upto m 60 ltac:(lia))).
  rewrite forallb_forall in Hall. specialize (Hall s (in_upto s 60 ltac:(lia))).
  destruct (strptime_HMS (strftime_HMS (mktime h m s 0))) as [[h' m' s' u']|];
    [|discriminate].
  cbn [hour minute second microsecond] in Hall.
  apply andb_true_iff in Hall as [Hall Hu]. apply andb_true_iff in Hall as [Hall Hs'].
  apply andb_true_iff in Hall as [Hh' Hm'].
  apply Z.eqb_eq in Hu, Hs', Hh', Hm'. congruence.
Qed.

(** X18: a schedule the Medications page writes ([strftime('%H:%M:%S')] of
    a time of day) is read back by [strptime] as the same hour, minute and
    second; so [get_next_reminder] does not fail on it before the last day
    of the calendar, and its result is at that time of day. *)
Theorem written_schedule_is_read_back (now : datetime) (med : medication) (t : time) :
  time_in_range t ->
  schedule med = strftime_HMS t ->
  let read := mktime (hour t) (minute t) (second t) 0 in
  strptime_HMS (schedule med) = Some read /\
  (1 <= date_of now < MAXORDINAL ->
   exists r, get_next_reminder now med = Ok r /\ time_of r = read).
Proof.
  intros Ht Hs. cbv zeta.
  assert (Hparse : strptime_HMS (schedule med)
                   = Some (mktime (hour t) (minute t) (second t) 0)).
  { rewrite Hs. apply strptime_strftime. exact Ht. }
  split; [exact Hparse|]. intros Hday.
  destruct (get_next_reminder_returns now med _ Hparse Hday) as [r Hr].
  exists r. split; [exact Hr|].
  apply (get_next_reminder_result now med _ r Hparse Hr).
Qed.

(** ** Runs of the script and the file *)

(** X19: a session that starts when [load_data] has a cached document
    takes that document, whatever the file holds, and the end of its first
    run writes it to the file: what another session saved in between is
    replaced by the document first loaded. *)
Theorem new_session_restores_cached_document (w : world) (cached : json_value)
    (shown : list message) :
  cache w = Some (cached, shown) ->
  session_data w = None ->
  file w <> Denied ->
  help_page_run w
  = (Ok tt, mkworld (Text (Some cached)) (cache w) (Some cached) (screen w ++ shown)).
Proof.
  destruct w as [f c d scr]. cbn [cache session_data file]. intros -> -> Hf.
  destruct f as [| |p]; [reflexivity | congruence | reflexivity].
Qed.


(** ** Instances *)

Lemma load_data_keeps_first_answer_witness :
  fst ((for_each_M save_data [one_pill] ;;; set_file (Text (Some one_pill)) ;;; load_data)
         (snd (load_data fresh_world)))
  = Ok empty_document.
Proof.
  apply (load_data_keeps_first_answer fresh_world (snd (load_data fresh_world))
           empty_document [one_pill] (Text (Some one_pill))).
  reflexivity.
Defined.

Lemma medications_save_changes_gate_witness :
  medications_save_changes draft_world
  = (Ok tt, mkworld (Text (Some one_pill)) None (Some draft_document)
              [StError "Medication name cannot be empty"]).
Proof.
  rewrite (medications_save_changes_gate draft_world draft_document
             [mkmed "Aspirin" "08:00:00" None; new_med]);
    [reflexivity | reflexivity | reflexivity | discriminate].
Defined.

Lemma medications_save_changes_toast_after_failure_witness :
  screen (snd (medications_save_changes locked_world))
  = [StErrorExn "Error saving data: " PermissionError;
     StToast "Changes saved successfully"].
Proof.
  rewrite (medications_save_changes_toast_after_failure locked_world one_pill
             [mkmed "Aspirin" "08:00:00" None]); reflexivity.
Defined.

Lemma refused_document_is_saved_anyway_witness :
  refusals validate_medication [mkmed "Aspirin" "08:00:00" None; new_med]
  = ["Medication name cannot be empty"] /\
  file (snd ((medications_save_changes ;;; script_end) draft_world))
  = Text (Some draft_document).
Proof.
  split; [reflexivity|].
  apply (refused_document_is_saved_anyway draft_world draft_document
           [mkmed "Aspirin" "08:00:00" None; new_med]);
    [reflexivity | reflexivity | discriminate].
Defined.


Lemma new_medication_is_saved_unnamed_witness :
  file (snd ((add_new_medication ;;; script_end) running_world))
  = Text (Some (document [new_med] [])).
Proof.
  destruct (new_medication_is_saved_unnamed running_world [] (Some []))
    as [Hrun _]; [reflexivity | discriminate |].
  rewrite Hrun. reflexivity.
Defined.

Lemma pages_need_medications_witness :
  Home.upcoming_events read_isoformat noon_2030 JOther = Raise TypeError.
Proof.
  destruct (pages_need_medications JOther) as (_ & _ & Hhome & _); [reflexivity|].
  apply Hhome.
Defined.

Lemma next_event_is_earliest_witness :
  exists entries,
    Home.upcoming_events read_isoformat noon_2030 busy_document = Ok entries /\
    Forall (not_later (Home.mkupcoming (mkdatetime 741093 (mktime 8 0 0 0)) "Take Aspirin"))
      entries.
Proof.
  destruct (next_event_is_earliest read_isoformat noon_2030 busy_document
              (Some (Home.mkupcoming (mkdatetime 741093 (mktime 8 0 0 0)) "Take Aspirin")))
    as (entries & Hentries & Hall & _); [vm_compute; reflexivity|].
  exists entries. split; assumption.
Defined.

Lemma calendar_titles_witness :
  map summary
    (match generate_calendar read_isoformat noon_2030 ∅ busy_document [] with
     | Ok evs => evs
     | Raise _ => []
     end)
  = ["Take Aspirin"; "Refill Aspirin"; ""].
Proof.
  rewrite (calendar_titles read_isoformat noon_2030 ∅ [stocked_pill] [untitled_visit] []);
    [reflexivity | vm_compute; reflexivity].
Defined.

Lemma medication_events_not_before_now_witness :
  Forall (fun ev => datetime_leb noon_2030 (dtstart ev) = true)
    [mkevent "Take Aspirin" (mkdatetime 741093 (mktime 8 0 0 0))
       (Some (mkrule "daily" None None));
     mkevent "Refill Aspirin" (mkdatetime 741096 midnight) None].
Proof.
  apply (medication_events_not_before_now noon_2030 ∅ stocked_pill).
  - vm_compute. reflexivity.
  - intros s [= <-] _. split; reflexivity.
Defined.

Lemma written_schedule_is_read_back_witness :
  strptime_HMS (schedule stocked_pill) = Some (mktime 8 0 0 0).
Proof.
  apply (written_schedule_is_read_back noon_2030 stocked_pill (mktime 8 0 0 77)).
  - unfold time_in_range. cbn. lia.
  - reflexivity.
Defined.

Lemma new_session_restores_cached_document_witness :
  file (snd (help_page_run second_session)) = Text (Some empty_document).
Proof.
  rewrite (new_session_restores_cached_document second_session empty_document []);
    [reflexivity | reflexivity | reflexivity | discriminate].
Defined.

